(** * pycoterm: the execution engine and the line editor of the terminal

    A shallow embedding of [PythonExecutor] and of the editing half of
    [TerminalWidget] from [pycoterm.py].

    - Python objects are references; [is] compares references.
    - The process-wide interpreter state ([sys], [builtins], the stream
      objects) is the record [Process]; a [PythonExecutor] owns its two
      dictionaries; executed code sees both.
    - Code run by [eval], [exec] and the hooks is not interpreted here: its
      behaviour is supplied by a [Python] semantics record, as a resumption
      that either returns, raises, or calls the [input] function the
      executor installed for the turn. Code that runs forever has no
      resumption: its turn never ends, and every property below is about
      turns that end or wait.
    - Qt signals are appended to a log; the calls the controller thread makes
      while the worker waits ([provide_input], [interrupt_execution]) are
      read from a list of pending replies.
    - Strings are sequences of 8-bit characters. The document of the widget
      is its plain text and a text cursor is a position in it: selections,
      character formats and the 10 ms pause of [interactive_input] are left
      out, as are the two [flush] calls there, which do nothing to a
      [StringIO]. *)

From stdpp Require Import gmap strings list sorting.

From Stdlib Require Import Ascii ZArith Lia.

Open Scope string_scope.

(** ** Values and exceptions *)

(** A Python value: [None], or a reference to an object. *)
Inductive value :=
| VNone
| VObj (oid : nat).

#[global] Instance value_eq_dec : EqDecision value.
Proof. solve_decision. Defined.

(** [a is b] *)
Definition same_object (a b : value) : bool := bool_decide (a = b).

Definition is_None (v : value) : bool :=
  match v with VNone => true | VObj _ => false end.

(** The part of the exception hierarchy the executor's [except] clauses
    tell apart. [SyntaxError] is a subclass of [Exception];
    [KeyboardInterrupt] and the other direct subclasses of [BaseException]
    ([SystemExit], [GeneratorExit]) are not. *)
Inductive exn_class :=
| SyntaxError
| OtherException
| KeyboardInterrupt
| OtherBaseException.

Record exn := {
  exn_class_of : exn_class;
  exn_type_name : string;   (* type(e).__name__ *)
  exn_message : string      (* str(e) *)
}.

Definition isinstance_SyntaxError (e : exn) : bool :=
  match exn_class_of e with SyntaxError => true | _ => false end.

Definition isinstance_KeyboardInterrupt (e : exn) : bool :=
  match exn_class_of e with KeyboardInterrupt => true | _ => false end.

Definition isinstance_Exception (e : exn) : bool :=
  match exn_class_of e with
  | SyntaxError | OtherException => true
  | KeyboardInterrupt | OtherBaseException => false
  end.

(** [KeyboardInterrupt()] as [interactive_input] raises it. *)
Definition KeyboardInterrupt_exn : exn :=
  {| exn_class_of := KeyboardInterrupt;
     exn_type_name := "KeyboardInterrupt";
     exn_message := "" |}.

(** ** Process-wide state *)

Record Process := {
  sys_stdout : value;
  sys_stderr : value;
  sys_stdin : value;
  sys_displayhook : option value;      (* None: the attribute is absent *)
  sys_excepthook : option value;
  builtins_input : value;
  builtins_underscore : option value;  (* builtins._ ; None: absent *)
  streams : gmap nat string;           (* contents of the io.StringIO objects *)
  next_oid : nat                       (* the next fresh object reference *)
}.

Definition set_sys_stdout (v : value) (p : Process) : Process :=
  {| sys_stdout := v; sys_stderr := sys_stderr p; sys_stdin := sys_stdin p;
     sys_displayhook := sys_displayhook p; sys_excepthook := sys_excepthook p;
     builtins_input := builtins_input p;
     builtins_underscore := builtins_underscore p;
     streams := streams p; next_oid := next_oid p |}.

Definition set_sys_stderr (v : value) (p : Process) : Process :=
  {| sys_stdout := sys_stdout p; sys_stderr := v; sys_stdin := sys_stdin p;
     sys_displayhook := sys_displayhook p; sys_excepthook := sys_excepthook p;
     builtins_input := builtins_input p;
     builtins_underscore := builtins_underscore p;
     streams := streams p; next_oid := next_oid p |}.

Definition set_sys_stdin (v : value) (p : Process) : Process :=
  {| sys_stdout := sys_stdout p; sys_stderr := sys_stderr p; sys_stdin := v;
     sys_displayhook := sys_displayhook p; sys_excepthook := sys_excepthook p;
     builtins_input := builtins_input p;
     builtins_underscore := builtins_underscore p;
     streams := streams p; next_oid := next_oid p |}.

Definition set_builtins_input (v : value) (p : Process) : Process :=
  {| sys_stdout := sys_stdout p; sys_stderr := sys_stderr p;
     sys_stdin := sys_stdin p;
     sys_displayhook := sys_displayhook p; sys_excepthook := sys_excepthook p;
     builtins_input := v;
     builtins_underscore := builtins_underscore p;
     streams := streams p; next_oid := next_oid p |}.

Definition set_builtins_underscore (v : option value) (p : Process) : Process :=
  {| sys_stdout := sys_stdout p; sys_stderr := sys_stderr p;
     sys_stdin := sys_stdin p;
     sys_displayhook := sys_displayhook p; sys_excepthook := sys_excepthook p;
     builtins_input := builtins_input p;
     builtins_underscore := v;
     streams := streams p; next_oid := next_oid p |}.

Definition set_streams (s : gmap nat string) (p : Process) : Process :=
  {| sys_stdout := sys_stdout p; sys_stderr := sys_stderr p;
     sys_stdin := sys_stdin p;
     sys_displayhook := sys_displayhook p; sys_excepthook := sys_excepthook p;
     builtins_input := builtins_input p;
     builtins_underscore := builtins_underscore p;
     streams := s; next_oid := next_oid p |}.

Definition set_next_oid (n : nat) (p : Process) : Process :=
  {| sys_stdout := sys_stdout p; sys_stderr := sys_stderr p;
     sys_stdin := sys_stdin p;
     sys_displayhook := sys_displayhook p; sys_excepthook := sys_excepthook p;
     builtins_input := builtins_input p;
     builtins_underscore := builtins_underscore p;
     streams := streams p; next_oid := n |}.

Definition set_sys_displayhook (h : option value) (p : Process) : Process :=
  {| sys_stdout := sys_stdout p; sys_stderr := sys_stderr p;
     sys_stdin := sys_stdin p;
     sys_displayhook := h; sys_excepthook := sys_excepthook p;
     builtins_input := builtins_input p;
     builtins_underscore := builtins_underscore p;
     streams := streams p; next_oid := next_oid p |}.

Definition set_sys_excepthook (h : option value) (p : Process) : Process :=
  {| sys_stdout := sys_stdout p; sys_stderr := sys_stderr p;
     sys_stdin := sys_stdin p;
     sys_displayhook := sys_displayhook p; sys_excepthook := h;
     builtins_input := builtins_input p;
     builtins_underscore := builtins_underscore p;
     streams := streams p; next_oid := next_oid p |}.

(** [object()], [def f(...)]: a reference nothing else holds. *)
Definition new_object (p : Process) : value * Process :=
  (VObj (next_oid p), set_next_oid (S (next_oid p)) p).

(** [io.StringIO()] *)
Definition new_StringIO (p : Process) : nat * Process :=
  (next_oid p,
   set_streams (<[next_oid p := ""]> (streams p))
     (set_next_oid (S (next_oid p)) p)).

(** [buf.getvalue()] *)
Definition getvalue (buf : nat) (p : Process) : string :=
  default "" (streams p !! buf).

(** [buf.write(s)] on a StringIO positioned at its end *)
Definition stream_write (buf : nat) (s : string) (p : Process) : Process :=
  set_streams (<[buf := getvalue buf p +:+ s]> (streams p)) p.

(** [buf.seek(0); buf.truncate(0)] *)
Definition stream_clear (buf : nat) (p : Process) : Process :=
  set_streams (<[buf := ""]> (streams p)) p.

(** [getattr(builtins, '_', object())]: the default is built before the
    lookup, so an object is allocated either way. *)
Definition getattr_underscore (p : Process) : value * Process :=
  let '(sentinel, p) := new_object p in
  (default sentinel (builtins_underscore p), p).

(** ** The executor object *)

Record PythonExecutor := {
  code : string;
  globals_dict : gmap string value;
  locals_dict : gmap string value;
  input_response : option string;
  input_event : option bool;        (* a threading.Event and its flag *)
  interrupted : bool;
  initial_globals : gset string
}.

Definition set_code (c : string) (x : PythonExecutor) : PythonExecutor :=
  {| code := c; globals_dict := globals_dict x; locals_dict := locals_dict x;
     input_response := input_response x; input_event := input_event x;
     interrupted := interrupted x; initial_globals := initial_globals x |}.

Definition set_globals_dict (g : gmap string value) (x : PythonExecutor)
  : PythonExecutor :=
  {| code := code x; globals_dict := g; locals_dict := locals_dict x;
     input_response := input_response x; input_event := input_event x;
     interrupted := interrupted x; initial_globals := initial_globals x |}.

Definition set_locals_dict (l : gmap string value) (x : PythonExecutor)
  : PythonExecutor :=
  {| code := code x; globals_dict := globals_dict x; locals_dict := l;
     input_response := input_response x; input_event := input_event x;
     interrupted := interrupted x; initial_globals := initial_globals x |}.

Definition set_input_response (r : option string) (x : PythonExecutor)
  : PythonExecutor :=
  {| code := code x; globals_dict := globals_dict x;
     locals_dict := locals_dict x;
     input_response := r; input_event := input_event x;
     interrupted := interrupted x; initial_globals := initial_globals x |}.

Definition set_input_event (ev : option bool) (x : PythonExecutor)
  : PythonExecutor :=
  {| code := code x; globals_dict := globals_dict x;
     locals_dict := locals_dict x;
     input_response := input_response x; input_event := ev;
     interrupted := interrupted x; initial_globals := initial_globals x |}.

Definition set_interrupted (b : bool) (x : PythonExecutor) : PythonExecutor :=
  {| code := code x; globals_dict := globals_dict x;
     locals_dict := locals_dict x;
     input_response := input_response x; input_event := input_event x;
     interrupted := b; initial_globals := initial_globals x |}.

(** [self.input_event.set()] under [if self.input_event:] *)
Definition set_event (x : PythonExecutor) : PythonExecutor :=
  match input_event x with
  | Some _ => set_input_event (Some true) x
  | None => x
  end.

Definition provide_input (user_input : string) (x : PythonExecutor)
  : PythonExecutor :=
  set_event (set_input_response (Some user_input) x).

Definition interrupt_execution (x : PythonExecutor) : PythonExecutor :=
  set_event (set_interrupted true x).

(** ** Text helpers: [str.strip], [str.split], [str.startswith] *)

(** [str.isspace] on one character (code points below 256). *)
Definition py_isspace (c : ascii) : bool :=
  let n := nat_of_ascii c in
  (Nat.leb 9 n && Nat.leb n 13) || (Nat.leb 28 n && Nat.leb n 32)
  || Nat.eqb n 133 || Nat.eqb n 160.

Fixpoint lstrip (s : string) : string :=
  match s with
  | EmptyString => EmptyString
  | String c r => if py_isspace c then lstrip r else s
  end.

Definition rstrip (s : string) : string := String.rev (lstrip (String.rev s)).

(** [s.strip()] *)
Definition strip (s : string) : string := rstrip (lstrip s).

(** [s.split()]: the maximal runs of non-whitespace characters, in order.
    [cur] is the run being read, reversed. *)
Fixpoint split_go (cur : option string) (s : string) : list string :=
  match s with
  | EmptyString =>
      match cur with Some w => [String.rev w] | None => [] end
  | String c r =>
      if py_isspace c
      then match cur with
           | Some w => String.rev w :: split_go None r
           | None => split_go None r
           end
      else split_go (Some (String c (default EmptyString cur))) r
  end.

Definition split (s : string) : list string := split_go None s.

(** [name.startswith(p)] *)
Definition startswith (name p : string) : bool := String.prefix p name.

(** ** Signals, replies and the machine the worker thread runs on *)

Inductive signal :=
| execution_finished (output : string) (is_error : bool)
| input_requested (prompt : string)
| output_ready (text : string).

(** What the controller thread does while the worker waits on its event. *)
Inductive reply :=
| ProvideInput (user_input : string)
| InterruptExecution.

Definition apply_reply (r : reply) (x : PythonExecutor) : PythonExecutor :=
  match r with
  | ProvideInput s => provide_input s x
  | InterruptExecution => interrupt_execution x
  end.

Record Machine := {
  process : Process;
  executor : PythonExecutor;
  emitted : list signal;     (* oldest first *)
  pending : list reply
}.

(** What executed code can reach. *)
Definition World : Type := Process * PythonExecutor.

Definition world (m : Machine) : World := (process m, executor m).

Definition with_world (w : World) (m : Machine) : Machine :=
  {| process := w.1; executor := w.2;
     emitted := emitted m; pending := pending m |}.

Definition with_process (p : Process) (m : Machine) : Machine :=
  {| process := p; executor := executor m;
     emitted := emitted m; pending := pending m |}.

Definition with_executor (x : PythonExecutor) (m : Machine) : Machine :=
  {| process := process m; executor := x;
     emitted := emitted m; pending := pending m |}.

Definition emit (s : signal) (m : Machine) : Machine :=
  {| process := process m; executor := executor m;
     emitted := (emitted m ++ [s])%list; pending := pending m |}.

Definition with_pending (rs : list reply) (m : Machine) : Machine :=
  {| process := process m; executor := executor m;
     emitted := emitted m; pending := rs |}.

(** ** Executed code *)

Inductive input_result :=
| InputReturned (response : string)
| InputInterrupted.                  (* the call raised KeyboardInterrupt *)

(** Code that runs inside a turn: it returns, raises, or calls the input
    function of the turn and goes on from what that call does. *)
Inductive result (A : Type) :=
| Return (a : A) (w : World)
| Raise (e : exn) (w : World)
| CallInput (prompt : string) (w : World)
            (k : input_result -> World -> result A).

Arguments Return {A} a w.

Arguments Raise {A} e w.

Arguments CallInput {A} prompt w k.

Inductive compile_mode := mode_eval | mode_exec.

(** The behaviour of the interpreter on the code the executor is given. *)
Record Python := {
  (* compile(source, '<input>', mode): the exception it raises, if any *)
  py_compile : compile_mode -> string -> option exn;
  (* eval(compiled, globals_dict, locals_dict) *)
  py_eval : string -> World -> result value;
  (* exec(compiled, globals_dict, locals_dict) *)
  py_exec : string -> World -> result unit;
  (* callable(obj) *)
  py_callable : value -> bool;
  (* sys.displayhook(value) *)
  call_displayhook : value -> value -> World -> result value;
  (* sys.excepthook(type(e), e, e.__traceback__) *)
  call_excepthook : value -> exn -> World -> result value;
  (* repr(obj) *)
  py_repr : value -> World -> result string;
  (* dir(eval(source, globals_dict)): the names, or None when either call
     raises; evaluation may rebind entries of the executor's dictionaries *)
  py_eval_dir : string -> PythonExecutor
                -> option (list string) * PythonExecutor;
  (* dir(builtins) *)
  dir_builtins : list string
}.

(** How a step of the worker ends. *)
Inductive outcome (A : Type) :=
| Ok (a : A) (m : Machine)
| Exc (e : exn) (m : Machine)
| Blocked (m : Machine).             (* waits on an event nobody sets *)

Arguments Ok {A} a m.

Arguments Exc {A} e m.

Arguments Blocked {A} m.

(** [print(s)]: writes to whatever [sys.stdout] is now; with [None] there,
    [print] does nothing. *)
Definition py_print (s : string) (p : Process) : Process :=
  match sys_stdout p with
  | VObj buf => stream_write buf (s +:+ "
") p
  | VNone => p
  end.

Section Engine.

Variable py : Python.

(** [interactive_input(prompt)], the closure [run] installs as
    [builtins.input]; [stdout_capture] is the buffer of the turn. The calls
    of [flush] on [sys.stdout] and [sys.stderr] (lines 144-145) do nothing
    to the buffers of the turn nor to a console stream; an object that the
    code of the turn puts behind these names is taken to be such a stream,
    as [py_print] takes it. *)
Definition interactive_input (stdout_capture : nat) (prompt : string)
  (m : Machine) : outcome input_result :=
  let pending_output := getvalue stdout_capture (process m) in
  let m :=
    if bool_decide (pending_output = "") then m
    else emit (output_ready pending_output)
           (with_process (stream_clear stdout_capture (process m)) m) in
  let m := with_executor
             (set_input_response None
                (set_input_event (Some false) (executor m))) m in
  let m := emit (input_requested prompt) m in
  (* self.input_event.wait() *)
  match pending m with
  | [] => Blocked m
  | r :: rs =>
      let m := with_pending rs (with_executor (apply_reply r (executor m)) m) in
      if interrupted (executor m)
      then Ok InputInterrupted m
      else Ok (InputReturned (default "" (input_response (executor m)))) m
  end.

(** Runs executed code up to its return or raise, serving its input calls. *)
Fixpoint drive {A : Type} (stdout_capture : nat) (r : result A) (m : Machine)
  : outcome A :=
  match r with
  | Return a w => Ok a (with_world w m)
  | Raise e w => Exc e (with_world w m)
  | CallInput prompt w k =>
      match interactive_input stdout_capture prompt (with_world w m) with
      | Ok ir m' => drive stdout_capture (k ir (world m')) m'
      | Exc e m' => Exc e m'
      | Blocked m' => Blocked m'
      end
  end.

(** The two locals of [run] that outlive its [try] statement. *)
Record Frame := {
  result_value : value;
  exception_occurred : bool
}.

Definition frame0 : Frame :=
  {| result_value := VNone; exception_occurred := false |}.

(** [hasattr(sys, name) and callable(getattr(sys, name))] *)
Definition usable_hook (h : option value) : option value :=
  match h with
  | Some f => if py_callable py f then Some f else None
  | None => None
  end.

(** The body of an [except Exception as e:] clause of [run]. No assignment
    to [result_value] precedes any point where the exception can have been
    raised, so the clause starts from [result_value = None]. *)
Definition except_Exception (cap stderr_capture : nat)
  (fallback : exn -> string) (e : exn) (m : Machine) : outcome Frame :=
  match usable_hook (sys_excepthook (process m)) with
  | Some hook =>
      match drive cap (call_excepthook py hook e (world m)) m with
      | Ok excepthook_result m =>
          if is_None excepthook_result
          then Ok {| result_value := VNone; exception_occurred := true |} m
          else Ok {| result_value := excepthook_result;
                     exception_occurred := false |} m
      | Exc e' m => Exc e' m
      | Blocked m => Blocked m
      end
  | None =>
      Ok {| result_value := VNone; exception_occurred := true |}
         (with_process (stream_write stderr_capture (fallback e) (process m)) m)
  end.

(** f"{type(e).__name__}: {e}\n" *)
Definition name_and_message (e : exn) : string :=
  exn_type_name e +:+ ": " +:+ exn_message e +:+ "
".

(** f"Execution error: {e}\n" *)
Definition execution_error (e : exn) : string :=
  "Execution error: " +:+ exn_message e +:+ "
".

(** Lines 181-204: compile as an expression, evaluate, display. *)
Definition try_expression (cap : nat) (m : Machine) : outcome Frame :=
  let source := code (executor m) in
  match py_compile py mode_eval source with
  | Some e => Exc e m
  | None =>
      match drive cap (py_eval py source (world m)) m with
      | Exc e m => Exc e m
      | Blocked m => Blocked m
      | Ok result m =>
          if is_None result then Ok frame0 m
          else
            match usable_hook (sys_displayhook (process m)) with
            | Some hook =>
                let '(old_underscore, p) := getattr_underscore (process m) in
                let m := with_process p m in
                match drive cap (call_displayhook py hook result (world m)) m
                with
                | Exc e m => Exc e m
                | Blocked m => Blocked m
                | Ok displayhook_result m =>
                    let '(new_underscore, p) :=
                      getattr_underscore (process m) in
                    let m := with_process p m in
                    if negb (same_object new_underscore old_underscore)
                    then
                      Ok {| result_value := VNone;
                            exception_occurred := false |}
                         (with_executor
                            (set_globals_dict
                               (<["_" := new_underscore]>
                                  (globals_dict (executor m)))
                               (executor m)) m)
                    else
                      Ok {| result_value :=
                              if is_None displayhook_result then result
                              else displayhook_result;
                            exception_occurred := false |} m
                end
            | None =>
                (* print(repr(result)) *)
                match drive cap (py_repr py result (world m)) m with
                | Exc e m => Exc e m
                | Blocked m => Blocked m
                | Ok text m =>
                    Ok {| result_value := result;
                          exception_occurred := false |}
                       (with_process (py_print text (process m)) m)
                end
            end
      end
  end.

(** Lines 208-209: compile as statements, execute. *)
Definition try_statement (cap : nat) (m : Machine) : outcome unit :=
  let source := code (executor m) in
  match py_compile py mode_exec source with
  | Some e => Exc e m
  | None => drive cap (py_exec py source (world m)) m
  end.

(** The [except SyntaxError:] clause of the inner [try], lines 205-222. *)
Definition except_SyntaxError (cap stderr_capture : nat) (m : Machine)
  : outcome Frame :=
  match try_statement cap m with
  | Ok _ m => Ok frame0 m
  | Blocked m => Blocked m
  | Exc e' m =>
      if isinstance_KeyboardInterrupt e' then Exc e' m
      else if isinstance_Exception e'
      then except_Exception cap stderr_capture name_and_message e' m
      else Exc e' m
  end.

(** The inner [try] statement, lines 180-235. *)
Definition inner_try (cap stderr_capture : nat) (m : Machine)
  : outcome Frame :=
  match try_expression cap m with
  | Ok f m => Ok f m
  | Blocked m => Blocked m
  | Exc e m =>
      if isinstance_SyntaxError e then except_SyntaxError cap stderr_capture m
      else if isinstance_KeyboardInterrupt e then Exc e m
      else if isinstance_Exception e
      then except_Exception cap stderr_capture name_and_message e m
      else Exc e m
  end.

(** The [finally] clause, lines 255-259. *)
Definition restore (old_stdout old_stderr old_stdin old_input : value)
  (m : Machine) : Machine :=
  with_process
    (set_builtins_input old_input
       (set_sys_stdin old_stdin
          (set_sys_stderr old_stderr
             (set_sys_stdout old_stdout (process m))))) m.

(** Lines 262-270: the text and the flag of the final signal. *)
Definition combine_output (stdout_output stderr_output : string)
  : string * bool :=
  if bool_decide (stderr_output = "") then (stdout_output, false)
  else
    (if bool_decide (stdout_output = "") then stderr_output
     else stdout_output +:+ "
" +:+ stderr_output, true).

(** Lines 276-280: the executor's own update of the last result. *)
Definition store_last_result (f : Frame) (m : Machine) : Machine :=
  if negb (exception_occurred f) && negb (is_None (result_value f))
  then
    with_process
      (set_builtins_underscore (Some (result_value f)) (process m))
      (with_executor
         (set_globals_dict
            (<["_" := result_value f]> (globals_dict (executor m)))
            (executor m)) m)
  else m.

(** Lines 261-282. *)
Definition finish (cap stderr_capture : nat) (f : Frame) (m : Machine)
  : Machine :=
  let stdout_output := getvalue cap (process m) in
  let stderr_output := getvalue stderr_capture (process m) in
  let '(output, is_error) := combine_output stdout_output stderr_output in
  emit (execution_finished output is_error) (store_last_result f m).

(** How the outer [try] statement (lines 173-259) is left, its [finally]
    clause done. *)
Inductive try_end :=
| Fell_through (f : Frame) (m : Machine)  (* on to line 261 *)
| Interrupt_return (m : Machine)          (* the return of line 242 *)
| Raised (e : exn) (m : Machine)          (* the exception goes on *)
| Stuck (m : Machine).                    (* never left *)

Definition interrupt_text : string := "^C
KeyboardInterrupt".

(** The outer [try] statement once the redirection is installed: the inner
    [try], the two outer handlers, the [finally] clause. *)
Definition try_block (stdout_capture stderr_capture : nat)
  (old_stdout old_stderr old_stdin old_input : value) (m : Machine)
  : try_end :=
  let finally := restore old_stdout old_stderr old_stdin old_input in
  match inner_try stdout_capture stderr_capture m with
  | Blocked m => Stuck m
  | Ok f m => Fell_through f (finally m)
  | Exc e m =>
      if isinstance_KeyboardInterrupt e then
        Interrupt_return
          (finally (emit (execution_finished interrupt_text true) m))
      else if isinstance_Exception e then
        match except_Exception stdout_capture stderr_capture
                execution_error e m with
        | Ok f m => Fell_through f (finally m)
        | Exc e' m => Raised e' (finally m)
        | Blocked m => Stuck m
        end
      else Raised e (finally m)
  end.

(** The three places where [run] returns. *)
Inductive return_point :=
| at_blank        (* line 120: nothing to execute *)
| at_interrupt    (* line 242: in the KeyboardInterrupt handler *)
| at_end.         (* line 282: after the final signal *)

(** How a call of [run] ends. *)
Inductive turn_end :=
| Returned (r : return_point) (m : Machine)
| Propagated (e : exn) (m : Machine) (* an exception left run *)
| Waiting (m : Machine).             (* run never returns *)

(** Lines 123-177: the buffers, the input closure and their installation. *)
Definition installed (m : Machine) : Machine :=
  let '(stdout_capture, p) := new_StringIO (process m) in
  let '(stderr_capture, p) := new_StringIO p in
  let '(interactive_input_fn, p) := new_object p in
  let p := set_sys_stdout (VObj stdout_capture) p in
  let p := set_sys_stderr (VObj stderr_capture) p in
  let p := set_builtins_input interactive_input_fn p in
  with_process p m.

(** The two capture buffers of the turn [run] starts on [m]. *)
Definition stdout_capture_of (m : Machine) : nat := next_oid (process m).
Definition stderr_capture_of (m : Machine) : nat := S (next_oid (process m)).

(** [PythonExecutor.run] *)
Definition run (m : Machine) : turn_end :=
  let m := with_executor (set_interrupted false (executor m)) m in
  if bool_decide (strip (code (executor m)) = "") then
    Returned at_blank (emit (execution_finished "" false) m)
  else
    let old_stdout := sys_stdout (process m) in
    let old_stderr := sys_stderr (process m) in
    let old_stdin := sys_stdin (process m) in
    let old_input := builtins_input (process m) in
    let stdout_capture := stdout_capture_of m in
    let stderr_capture := stderr_capture_of m in
    match try_block stdout_capture stderr_capture
            old_stdout old_stderr old_stdin old_input (installed m) with
    | Fell_through f m =>
        Returned at_end (finish stdout_capture stderr_capture f m)
    | Interrupt_return m => Returned at_interrupt m
    | Raised e m => Propagated e m
    | Stuck m => Waiting m
    end.

End Engine.

(** ** The terminal widget: document, line buffer, history, completion

    The document is its plain text; a text cursor is a position in it. *)

(** [s[n:]] and [s[:n]] for [0 <= n] *)
Fixpoint str_from (n : nat) (s : string) : string :=
  match n, s with
  | O, _ => s
  | S n', String _ r => str_from n' r
  | S _, EmptyString => EmptyString
  end.

Fixpoint str_to (n : nat) (s : string) : string :=
  match n, s with
  | O, _ => EmptyString
  | S n', String c r => String c (str_to n' r)
  | S _, EmptyString => EmptyString
  end.

(** [s[:k]] for any integer [k]: a negative bound counts from the end. *)
Definition slice_to (k : Z) (s : string) : string :=
  if (0 <=? k)%Z then str_to (Z.to_nat k) s
  else str_to (Z.to_nat (Z.of_nat (String.length s) + k)) s.

(** ['.' in s] *)
Fixpoint contains_dot (s : string) : bool :=
  match s with
  | EmptyString => false
  | String c r => if Ascii.eqb c "." then true else contains_dot r
  end.

(** [s.split('.')]: [cur] is the piece being read, reversed. *)
Fixpoint split_dot_go (cur : string) (s : string) : list string :=
  match s with
  | EmptyString => [String.rev cur]
  | String c r =>
      if Ascii.eqb c "." then String.rev cur :: split_dot_go EmptyString r
      else split_dot_go (String c cur) r
  end.

Definition split_dot (s : string) : list string := split_dot_go EmptyString s.

(** ['.'.join(parts)] *)
Definition join_dot (parts : list string) : string := String.concat "." parts.

(** [sorted(list(set(names)))] *)
Definition sorted_set (names : list string) : list string :=
  merge_sort String.le (remove_dups names).

(** [list(d)]: the keys of a dictionary *)
Definition keys (d : gmap string value) : list string := elements (dom d).

Definition is_private (name : string) : bool := startswith name "_".

(** f"{s:<{width}}" *)
Definition ljust (width : nat) (s : string) : string :=
  s +:+ String.concat "" (replicate (width - String.length s) " ").

Record TerminalWidget := {
  document : string;
  cursor_position : nat;                  (* self.textCursor().position() *)
  command_history : list string;
  history_index : Z;
  current_prompt : string;
  command_start_position : nat;
  python_executor : PythonExecutor;
  pyco_download_pending : bool;
  waiting_for_input : bool;
  input_prompt : string;
  last_input_cursor_position : option nat;
  executor_started : bool;                (* python_executor.start() was called *)
  download_started : bool                 (* main_window.download_pyco() *)
}.

Definition set_document (d : string) (pos : nat) (t : TerminalWidget)
  : TerminalWidget :=
  {| document := d; cursor_position := pos;
     command_history := command_history t; history_index := history_index t;
     current_prompt := current_prompt t;
     command_start_position := command_start_position t;
     python_executor := python_executor t;
     pyco_download_pending := pyco_download_pending t;
     waiting_for_input := waiting_for_input t;
     input_prompt := input_prompt t;
     last_input_cursor_position := last_input_cursor_position t;
     executor_started := executor_started t;
     download_started := download_started t |}.

Definition set_history (h : list string) (i : Z) (t : TerminalWidget)
  : TerminalWidget :=
  {| document := document t; cursor_position := cursor_position t;
     command_history := h; history_index := i;
     current_prompt := current_prompt t;
     command_start_position := command_start_position t;
     python_executor := python_executor t;
     pyco_download_pending := pyco_download_pending t;
     waiting_for_input := waiting_for_input t;
     input_prompt := input_prompt t;
     last_input_cursor_position := last_input_cursor_position t;
     executor_started := executor_started t;
     download_started := download_started t |}.

Definition set_command_start (start : nat) (last : option nat)
  (t : TerminalWidget) : TerminalWidget :=
  {| document := document t; cursor_position := cursor_position t;
     command_history := command_history t; history_index := history_index t;
     current_prompt := current_prompt t;
     command_start_position := start;
     python_executor := python_executor t;
     pyco_download_pending := pyco_download_pending t;
     waiting_for_input := waiting_for_input t;
     input_prompt := input_prompt t;
     last_input_cursor_position := last;
     executor_started := executor_started t;
     download_started := download_started t |}.

Definition set_python_executor (x : PythonExecutor) (started : bool)
  (t : TerminalWidget) : TerminalWidget :=
  {| document := document t; cursor_position := cursor_position t;
     command_history := command_history t; history_index := history_index t;
     current_prompt := current_prompt t;
     command_start_position := command_start_position t;
     python_executor := x;
     pyco_download_pending := pyco_download_pending t;
     waiting_for_input := waiting_for_input t;
     input_prompt := input_prompt t;
     last_input_cursor_position := last_input_cursor_position t;
     executor_started := started;
     download_started := download_started t |}.

Definition set_modes (download_pending waiting : bool) (prompt : string)
  (downloading : bool) (t : TerminalWidget) : TerminalWidget :=
  {| document := document t; cursor_position := cursor_position t;
     command_history := command_history t; history_index := history_index t;
     current_prompt := current_prompt t;
     command_start_position := command_start_position t;
     python_executor := python_executor t;
     pyco_download_pending := download_pending;
     waiting_for_input := waiting;
     input_prompt := prompt;
     last_input_cursor_position := last_input_cursor_position t;
     executor_started := executor_started t;
     download_started := downloading |}.

(** [cursor.movePosition(End); cursor.insertText(s); setTextCursor(cursor)] *)
Definition append_text (s : string) (t : TerminalWidget) : TerminalWidget :=
  let d := document t +:+ s in
  set_document d (String.length d) t.

(** [cursor = self.textCursor(); cursor.insertText(s);
    self.setTextCursor(cursor)] *)
Definition insert_at_cursor (s : string) (t : TerminalWidget)
  : TerminalWidget :=
  let pos := cursor_position t in
  set_document (str_to pos (document t) +:+ s +:+ str_from pos (document t))
    (pos + String.length s) t.

Definition insert_prompt (t : TerminalWidget) : TerminalWidget :=
  let t := append_text (current_prompt t) t in
  set_command_start (cursor_position t) (Some (cursor_position t)) t.

(** [append_system_message] *)
Definition append_system_message (message : string) (t : TerminalWidget)
  : TerminalWidget := append_text message t.

Definition get_current_command (t : TerminalWidget) : string :=
  str_from (command_start_position t) (document t).

(** [set_current_command]: the edit is made through a copy of the text
    cursor; the widget's own cursor follows the edit when it stood in the
    replaced range. *)
Definition set_current_command (command : string) (t : TerminalWidget)
  : TerminalWidget :=
  let start := Nat.min (command_start_position t) (String.length (document t)) in
  let d := str_to start (document t) +:+ command in
  set_document d
    (if Nat.ltb (cursor_position t) start then cursor_position t
     else String.length d) t.

Definition navigate_history (direction : Z) (t : TerminalWidget)
  : TerminalWidget :=
  match command_history t with
  | [] => t
  | _ =>
      let new_index := (history_index t + direction)%Z in
      let len := Z.of_nat (length (command_history t)) in
      if ((0 <=? new_index) && (new_index <? len))%Z then
        let t := set_history (command_history t) new_index t in
        set_current_command
          (default "" (command_history t !! Z.to_nat new_index)) t
      else if (len <=? new_index)%Z then
        let t := set_history (command_history t) len t in
        set_current_command "" t
      else t
  end.

Definition on_execution_finished (output : string) (is_error : bool)
  (t : TerminalWidget) : TerminalWidget :=
  let t := set_document (document t) (String.length (document t)) t in
  let t := if bool_decide (output = "") then t
           else append_text "
" (append_text output t) in
  insert_prompt t.

Definition on_input_requested (prompt : string) (t : TerminalWidget)
  : TerminalWidget :=
  if waiting_for_input t then t
  else
    let t := set_modes (pyco_download_pending t) true prompt
               (download_started t) t in
    let t := append_text prompt t in
    set_command_start (cursor_position t) (last_input_cursor_position t) t.

(** [command.strip().lower()] is one of the given answers *)
Definition lower_ascii (c : ascii) : ascii :=
  let n := nat_of_ascii c in
  if Nat.leb 65 n && Nat.leb n 90 then ascii_of_nat (n + 32) else c.

Fixpoint lower (s : string) : string :=
  match s with
  | EmptyString => EmptyString
  | String c r => String (lower_ascii c) (lower r)
  end.

Definition handle_return (t : TerminalWidget) : TerminalWidget :=
  let command := get_current_command t in
  let t := append_text "
" t in
  if waiting_for_input t then
    let t := set_python_executor
               (provide_input command (python_executor t))
               (executor_started t) t in
    set_modes (pyco_download_pending t) false "" (download_started t) t
  else if pyco_download_pending t then
    let response := lower (strip command) in
    if bool_decide (response = "y") || bool_decide (response = "yes") then
      set_modes true false (input_prompt t) true t
    else if bool_decide (response = "n") || bool_decide (response = "no") then
      let t := append_system_message "Download cancelled.
" t in
      let t := set_modes false false (input_prompt t) (download_started t) t in
      insert_prompt t
    else
      let t := append_system_message
                 "Please enter 'y' for yes or 'n' for no: " t in
      set_command_start (cursor_position t) (last_input_cursor_position t) t
  else if bool_decide (strip command = "") then insert_prompt t
  else
    let h := command_history t in
    let h := if bool_decide (last h = Some command) then h
             else (h ++ [command])%list in
    let t := set_history h (Z.of_nat (length h)) t in
    set_python_executor (set_code command (python_executor t)) true t.

(** [handle_ctrl_c] with no text selected: an interrupt for the executor
    when it waits for input, a bare [KeyboardInterrupt] line otherwise. *)
Definition handle_ctrl_c (t : TerminalWidget) : TerminalWidget :=
  if waiting_for_input t then
    let t := set_modes (pyco_download_pending t) false ""
               (download_started t) t in
    set_python_executor (interrupt_execution (python_executor t))
      (executor_started t) t
  else
    insert_prompt (append_text "
KeyboardInterrupt
" t).

Section Completion.

Variable py : Python.

(** [get_all_completions]: the names bound since the initial globals were
    recorded. *)
Definition get_all_completions (x : PythonExecutor) : list string :=
  sorted_set
    (List.filter
       (fun name => negb (is_private name)
                    && bool_decide (name ∉ initial_globals x))
       (keys (globals_dict x))).

(** The candidates for one name: keys of [globals_dict], then
    [dir(builtins)]. *)
Definition name_candidates (last_word : string) (x : PythonExecutor)
  : list string :=
  let wanted name := startswith name last_word && negb (is_private name) in
  (List.filter wanted (keys (globals_dict x))
   ++ List.filter wanted (dir_builtins py))%list.

(** [get_completions]; the executor is returned because resolving the
    object of an attribute completion evaluates source text. *)
Definition get_completions (text : string) (cursor_pos : Z)
  (x : PythonExecutor) : list string * PythonExecutor :=
  let words := split (slice_to cursor_pos text) in
  match last words with
  | None => (get_all_completions x, x)
  | Some last_word =>
      if contains_dot last_word then
        let parts := split_dot last_word in
        if Nat.leb 2 (length parts) then
          let obj_name := join_dot (removelast parts) in
          let attr_prefix := default "" (last parts) in
          match py_eval_dir py obj_name x with
          | (Some names, x) =>
              (map (fun attr => obj_name +:+ "." +:+ attr)
                 (List.filter (fun attr => startswith attr attr_prefix) names),
               x)
          | (None, x) => ([], x)
          end
        else ([], x)
      else (sorted_set (name_candidates last_word x), x)
  end.

(** The loop of lines 787-790; [i] is the index of the head of [cs]. *)
Fixpoint listing_rows (cols width i : nat) (cs : list string) : string :=
  match cs with
  | [] => ""
  | completion :: rest =>
      (if Nat.ltb 0 i && Nat.eqb (i mod cols) 0 then "
" else "")
      +:+ ljust width completion
      +:+ listing_rows cols width (S i) rest
  end.

Definition max_width (completions : list string) : nat :=
  foldr Nat.max 0 (map String.length completions).

(** What lines 781-792 write after the current line. *)
Definition listing (completions : list string) : string :=
  let w := max_width completions in
  let cols := Nat.max 1 (80 / (w + 2)) in
  "
" +:+ listing_rows cols (w + 2) 0 completions +:+ "
".

(** Lines 763-771: the text to insert for the only candidate. *)
Definition insert_text_for (last_word completion : string) : string :=
  if contains_dot last_word then
    let prefix_to_replace := default "" (last (split_dot last_word)) in
    let attr_name := default "" (last (split_dot completion)) in
    str_from (String.length prefix_to_replace) attr_name
  else str_from (String.length last_word) completion.

Definition handle_tab_completion (t : TerminalWidget) : TerminalWidget :=
  let current_command := get_current_command t in
  let cursor_pos :=
    (Z.of_nat (cursor_position t) - Z.of_nat (command_start_position t))%Z in
  let '(completions, x) :=
    get_completions current_command cursor_pos (python_executor t) in
  let t := set_python_executor x (executor_started t) t in
  match completions with
  | [] => t
  | [completion] =>
      match last (split (slice_to cursor_pos current_command)) with
      | None => t
      | Some last_word =>
          insert_at_cursor (insert_text_for last_word completion) t
      end
  | _ =>
      let t := append_text (listing completions) t in
      let t := insert_prompt t in
      insert_at_cursor current_command t
  end.

End Completion.

(** Typing text at the end of the document, as QTextEdit does for the keys
    [keyPressEvent] passes on. *)
Definition type_text (s : string) (t : TerminalWidget) : TerminalWidget :=
  insert_at_cursor s t.

(** A terminal whose cursor stands at the end of a freshly drawn prompt. *)
Definition at_prompt (t : TerminalWidget) : Prop :=
  command_start_position t = String.length (document t)
  /\ cursor_position t = String.length (document t).

(** ** Notions the properties are stated with *)

(** The four process-wide bindings a turn redirects. *)
Definition handles (p : Process) : value * value * value * value :=
  (sys_stdout p, sys_stderr p, sys_stdin p, builtins_input p).

Definition is_terminal (s : signal) : bool :=
  match s with execution_finished _ _ => true | _ => false end.

(** No final signal among [ev]. *)
Definition quiet (ev : list signal) : Prop :=
  Forall (fun s => is_terminal s = false) ev.

(** [m'] has emitted what [m] had, then only [output_ready] and
    [input_requested] signals. *)
Definition extends (m m' : Machine) : Prop :=
  exists ev : list signal, emitted m' = (emitted m ++ ev)%list /\ quiet ev.

Definition outcome_machine {A : Type} (o : outcome A) : Machine :=
  match o with Ok _ m | Exc _ m | Blocked m => m end.

(** What the final signal of a returned turn carries. *)
Definition final_signal (r : return_point) (stdout_output stderr_output : string)
  : signal :=
  match r with
  | at_blank => execution_finished "" false
  | at_interrupt => execution_finished interrupt_text true
  | at_end =>
      execution_finished
        (if bool_decide (stderr_output = "") then stdout_output
         else if bool_decide (stdout_output = "") then stderr_output
              else stdout_output +:+ "
" +:+ stderr_output)
        (negb (bool_decide (stderr_output = "")))
  end.

(** ** A sample interpreter and session

    The behaviour of CPython on the handful of fragments the examples
    submit. Objects that exist before the session have references below
    100. *)

Definition SyntaxError_exn (message : string) : exn :=
  {| exn_class_of := SyntaxError; exn_type_name := "SyntaxError";
     exn_message := message |}.

Definition ZeroDivisionError_exn : exn :=
  {| exn_class_of := OtherException; exn_type_name := "ZeroDivisionError";
     exn_message := "division by zero" |}.

Definition RuntimeError_exn (message : string) : exn :=
  {| exn_class_of := OtherException; exn_type_name := "RuntimeError";
     exn_message := message |}.

Definition SystemExit_exn : exn :=
  {| exn_class_of := OtherBaseException; exn_type_name := "SystemExit";
     exn_message := "" |}.

Definition NameError_exn (name : string) : exn :=
  {| exn_class_of := OtherException; exn_type_name := "NameError";
     exn_message := "name '" +:+ name +:+ "' is not defined" |}.

(** [stream.write(s)] for the object a [sys] attribute refers to *)
Definition write_to (stream : value) (s : string) (w : World) : World :=
  match stream with
  | VObj buf => (stream_write buf s w.1, w.2)
  | VNone => w
  end.

Definition bind_local (name : string) (v : value) (w : World) : World :=
  (w.1, set_locals_dict (<[name := v]> (locals_dict w.2)) w.2).

Definition bind_builtins_underscore (v : value) (w : World) : World :=
  (set_builtins_underscore (Some v) w.1, w.2).

(** References of the objects of the sample session. *)
Definition console_out : value := VObj 1.

Definition console_err : value := VObj 2.

Definition console_in : value := VObj 3.

Definition default_displayhook : value := VObj 4.   (* sys.__displayhook__ *)

Definition default_excepthook : value := VObj 5.    (* sys.__excepthook__ *)

Definition host_input : value := VObj 6.

Definition sys_module : value := VObj 8.

Definition builtins_module : value := VObj 9.

Definition int_5 : value := VObj 15.

Definition int_42 : value := VObj 42.

(** def hook(v): builtins._ = v; return repr(v) *)
Definition echo_displayhook : value := VObj 51.

(** def hook(t, e, tb): sys.stderr.write("^C\nKeyboardInterrupt") *)
Definition mimic_excepthook : value := VObj 52.

(** def hook(v): print(v) *)
Definition quiet_displayhook : value := VObj 53.

(** def hook(t, e, tb): raise RuntimeError("hook failed") *)
Definition raising_excepthook : value := VObj 54.

Definition str_repr_42 : value := VObj 60.          (* the string '42' *)

Definition str_typed : value := VObj 70.            (* the string 'abc' *)

Definition sample_repr (v : value) : string :=
  if bool_decide (v = int_42) then "42"
  else if bool_decide (v = int_5) then "5"
  else if bool_decide (v = str_repr_42) then "'42'"
  else if bool_decide (v = str_typed) then "'abc'"
  else "<object>".

Definition is_expression (source : string) : bool :=
  bool_decide (source ∈ ["6*7"; "1/0"; "input()"; "myvar";
                         "print('hi') or eval('(')"]).

Definition sample_compile (mode : compile_mode) (source : string)
  : option exn :=
  match mode with
  | mode_exec => None
  | mode_eval =>
      if is_expression source then None
      else Some (SyntaxError_exn "invalid syntax (<input>, line 1)")
  end.

Definition sample_eval (source : string) (w : World) : result value :=
  if bool_decide (source = "6*7") then Return int_42 w
  else if bool_decide (source = "1/0") then Raise ZeroDivisionError_exn w
  else if bool_decide (source = "input()") then
    CallInput "" w
      (fun r w' =>
         match r with
         | InputReturned _ => Return str_typed w'
         | InputInterrupted => Raise KeyboardInterrupt_exn w'
         end)
  else if bool_decide (source = "myvar") then
    match locals_dict w.2 !! "myvar", globals_dict w.2 !! "myvar" with
    | Some v, _ | None, Some v => Return v w
    | None, None => Raise (NameError_exn "myvar") w
    end
  else if bool_decide (source = "print('hi') or eval('(')") then
    Raise (SyntaxError_exn "'(' was never closed (<string>, line 1)")
      (write_to (sys_stdout w.1) "hi
" w)
  else Return VNone w.

Definition sample_exec (source : string) (w : World) : result unit :=
  if bool_decide (source = "import sys; sys.stderr.write('oops')") then
    let w := bind_local "sys" sys_module w in
    Return () (write_to (sys_stderr w.1) "oops" w)
  else if bool_decide (source = "myvar = 5") then
    Return () (bind_local "myvar" int_5 w)
  else if bool_decide (source = "raise SystemExit") then
    Raise SystemExit_exn w
  else if bool_decide (source = "try:
    input()
except KeyboardInterrupt:
    pass") then
    CallInput "" w (fun _ w' => Return () w')
  else if bool_decide (source = "print('hi') or eval('(')") then
    Raise (SyntaxError_exn "'(' was never closed (<string>, line 1)")
      (write_to (sys_stdout w.1) "hi
" w)
  else Return () w.

Definition sample_callable (f : value) : bool :=
  bool_decide (f ∈ [default_displayhook; default_excepthook;
                    echo_displayhook; mimic_excepthook; quiet_displayhook;
                    raising_excepthook; host_input]).

Definition sample_displayhook (hook v : value) (w : World) : result value :=
  if bool_decide (hook = echo_displayhook) then
    Return str_repr_42 (bind_builtins_underscore v w)
  else if bool_decide (hook = quiet_displayhook) then
    Return VNone (write_to (sys_stdout w.1) (sample_repr v +:+ "
") w)
  else
    (* sys.__displayhook__: print the repr, then builtins._ = v *)
    Return VNone
      (bind_builtins_underscore v
         (write_to (sys_stdout w.1) (sample_repr v +:+ "
") w)).

Definition sample_excepthook (hook : value) (e : exn) (w : World)
  : result value :=
  if bool_decide (hook = mimic_excepthook) then
    Return VNone (write_to (sys_stderr w.1) interrupt_text w)
  else if bool_decide (hook = raising_excepthook) then
    Raise (RuntimeError_exn "hook failed") w
  else
    (* sys.__excepthook__: the traceback, to sys.stderr *)
    Return VNone
      (write_to (sys_stderr w.1)
         ("Traceback (most recent call last):
" +:+ name_and_message e) w).

(** Some of the names [dir(builtins)] lists. *)
Definition sample_dir_builtins : list string :=
  ["ArithmeticError"; "Exception"; "False"; "None"; "True"; "ValueError";
   "__build_class__"; "__import__"; "__name__"; "abs"; "all"; "any"; "bool";
   "dict"; "dir"; "eval"; "exec"; "input"; "int"; "len"; "list"; "map";
   "max"; "memoryview"; "min"; "object"; "open"; "print"; "range"; "repr";
   "set"; "sorted"; "str"; "sum"; "tuple"; "type"; "zip"].

Definition sample_eval_dir (source : string) (x : PythonExecutor)
  : option (list string) * PythonExecutor :=
  if bool_decide (source = "sys") then
    (Some ["__name__"; "argv"; "path"; "platform"; "stderr"; "stdin";
           "stdout"], x)
  else (None, x).

Definition cpython : Python :=
  {| py_compile := sample_compile;
     py_eval := sample_eval;
     py_exec := sample_exec;
     py_callable := sample_callable;
     call_displayhook := sample_displayhook;
     call_excepthook := sample_excepthook;
     py_repr := fun v w => Return (sample_repr v) w;
     py_eval_dir := sample_eval_dir;
     dir_builtins := sample_dir_builtins |}.

(** The process as the application starts it. *)
Definition process0 : Process :=
  {| sys_stdout := console_out; sys_stderr := console_err;
     sys_stdin := console_in;
     sys_displayhook := Some default_displayhook;
     sys_excepthook := Some default_excepthook;
     builtins_input := host_input;
     builtins_underscore := None;
     streams := ∅;
     next_oid := 100 |}.

(** [PythonExecutor.__init__] followed by [setup_python_environment]. *)
Definition executor0 : PythonExecutor :=
  {| code := "";
     globals_dict := <["builtins" := builtins_module]>
                       (<["sys" := sys_module]>
                          (<["__name__" := VObj 7]> ∅));
     locals_dict := ∅;
     input_response := None;
     input_event := None;
     interrupted := false;
     initial_globals :=
       list_to_set
         (["__name__"; "sys"; "builtins"]
          ++ List.filter (fun name => negb (is_private name))
               sample_dir_builtins)%list |}.

(** The machine for one turn on [source]. *)
Definition submit (source : string) (p : Process) (x : PythonExecutor)
  (replies : list reply) : Machine :=
  {| process := p; executor := set_code source x;
     emitted := []; pending := replies |}.

(** The text C4 states for the final signal: the output, then, when the
    error text is not empty, a newline and the error text. *)
Definition text_as_claimed (stdout_output stderr_output : string) : string :=
  stdout_output
  +:+ (if bool_decide (stderr_output = "") then ""
       else "
" +:+ stderr_output).

(** The machine as [run] hands it to the code of the turn. *)
Definition turn_start (m : Machine) : Machine :=
  installed (with_executor (set_interrupted false (executor m)) m).

(** The machine as the display hook finds it: the sentinel of the first
    [getattr] has been allocated. *)
Definition hook_start (m : Machine) : Machine :=
  with_process (getattr_underscore (process m)).2 m.

(** The outer [try] statement of the turn [run] starts on [m]. *)
Definition turn_try (py : Python) (m : Machine) : try_end :=
  try_block py (stdout_capture_of m) (stderr_capture_of m)
    (sys_stdout (process m)) (sys_stderr (process m))
    (sys_stdin (process m)) (builtins_input (process m)) (turn_start m).

(** ** Turns of the sample session *)

Definition machine_of (t : turn_end) : Machine :=
  match t with Returned _ m | Propagated _ m | Waiting m => m end.

Definition try_machine (t : try_end) : Machine :=
  match t with
  | Fell_through _ m' | Interrupt_return m' | Raised _ m' | Stuck m' => m'
  end.

(** The value C1 states for the last result. *)
Definition last_result_as_claimed (hook_return result : value) : value :=
  if is_None hook_return then result else hook_return.

Definition process_echo : Process :=
  set_sys_displayhook (Some echo_displayhook) process0.

Definition process_quiet : Process :=
  set_sys_displayhook (Some quiet_displayhook) process0.

Definition process_mimic : Process :=
  set_sys_excepthook (Some mimic_excepthook) process0.

(** The process once [6*7] has been shown by the default hook. *)
Definition process_seen_42 : Process :=
  set_builtins_underscore (Some int_42) process0.

Definition turn_6x7 : Machine := submit "6*7" process0 executor0 [].

Definition turn_6x7_evaluated : Machine :=
  outcome_machine
    (drive (stdout_capture_of turn_6x7)
       (py_eval cpython "6*7" (world (turn_start turn_6x7)))
       (turn_start turn_6x7)).

Definition turn_6x7_displayed : Machine :=
  outcome_machine
    (drive (stdout_capture_of turn_6x7)
       (call_displayhook cpython default_displayhook int_42
          (world (hook_start turn_6x7_evaluated)))
       (hook_start turn_6x7_evaluated)).

Definition turn_6x7_again : Machine :=
  submit "6*7" process_seen_42 executor0 [].

Definition turn_input : Machine :=
  submit "input()" process0 executor0 [InterruptExecution].

Definition turn_stderr_only : Machine :=
  submit "import sys; sys.stderr.write('oops')" process0 executor0 [].

Definition turn_nested_syntax_error : Machine :=
  submit "print('hi') or eval('(')" process0 executor0 [].

(** What [dir] promises of the names it returns: sorted, no name twice, and
    no dot inside a name. *)
Definition dir_contract (py : Python) : Prop :=
  forall (source : string) (x x' : PythonExecutor) (names : list string),
    py_eval_dir py source x = (Some names, x') ->
    Sorted String.le names /\ NoDup names
    /\ Forall (fun name => contains_dot name = false) names.

(** A terminal at a fresh prompt, for the executor [x]. *)
Definition terminal0 (x : PythonExecutor) : TerminalWidget :=
  insert_prompt
    {| document := ""; cursor_position := 0;
       command_history := []; history_index := (-1)%Z;
       current_prompt := ">>> "; command_start_position := 0;
       python_executor := x;
       pyco_download_pending := false; waiting_for_input := false;
       input_prompt := ""; last_input_cursor_position := None;
       executor_started := false; download_started := false |}.

(** The executor after the companion script defined [alpha] in its
    globals. *)
Definition executor_alpha : PythonExecutor :=
  set_globals_dict (<["alpha" := VObj 20]> (globals_dict executor0)) executor0.

Definition process_raising : Process :=
  set_sys_excepthook (Some raising_excepthook) process0.

(** ** Cancellation at an input wait *)

(** Code that lets the [KeyboardInterrupt] of a cancelled input call pass:
    at each of its input calls the exception leaves the code as one. *)
Fixpoint passes_interrupt {A : Type} (r : result A) : Prop :=
  match r with
  | Return _ _ => True
  | Raise _ _ => True
  | CallInput _ _ k =>
      (forall w : World, exists (e : exn) (w' : World),
          k InputInterrupted w = Raise e w'
          /\ isinstance_KeyboardInterrupt e = true)
      /\ forall (response : string) (w : World),
           passes_interrupt (k (InputReturned response) w)
  end.

(** No code the interpreter runs in a turn - the fragment as an expression
    or as statements, the hooks, [repr] - catches that exception. *)
Definition lets_interrupt_pass (py : Python) : Prop :=
  (forall source w, passes_interrupt (py_eval py source w))
  /\ (forall source w, passes_interrupt (py_exec py source w))
  /\ (forall hook v w, passes_interrupt (call_displayhook py hook v w))
  /\ (forall v w, passes_interrupt (py_repr py v w))
  /\ (forall hook e w, passes_interrupt (call_excepthook py hook e w)).

(** The machine with a cancellation, and what the controller does after
    it, queued behind the replies it has. *)
Definition then_cancel (rest : list reply) (m : Machine) : Machine :=
  with_pending (pending m ++ InterruptExecution :: rest)%list m.

(** How a step started with a cancellation queued behind the replies
    relates to the step without it: the same end, or, where the step would
    wait for ever, a [KeyboardInterrupt]. *)
Definition cancelled {A : Type} (rest : list reply) (o o' : outcome A)
  : Prop :=
  match o with
  | Ok a m => o' = Ok a (then_cancel rest m)
  | Exc e m => o' = Exc e (then_cancel rest m)
  | Blocked m =>
      exists (e : exn) (m' : Machine),
        o' = Exc e m'
        /\ isinstance_KeyboardInterrupt e = true
        /\ pending m' = rest
        /\ emitted m' = emitted m
  end.


(** ** A sample interpreter whose code reads input

    Statements with two input calls, and an exception hook that asks before
    it reports a failure of its own. *)

(** def hook(t, e, tb):
        if t is RuntimeError: input('Report? ')
        else: raise RuntimeError('hook failed') *)
Definition asking_excepthook : value := VObj 56.

Definition two_questions : string := "print(input('Name: '))
input('Age: ')".

Definition sample_exec_questions (source : string) (w : World)
  : result unit :=
  if bool_decide (source = two_questions) then
    CallInput "Name: " w
      (fun r w1 =>
         match r with
         | InputInterrupted => Raise KeyboardInterrupt_exn w1
         | InputReturned name =>
             CallInput "Age: " (write_to (sys_stdout w1.1) (name +:+ "
") w1)
               (fun r w2 =>
                  match r with
                  | InputInterrupted => Raise KeyboardInterrupt_exn w2
                  | InputReturned _ => Return () w2
                  end)
         end)
  else Return () w.

Definition sample_excepthook_asking (hook : value) (e : exn) (w : World)
  : result value :=
  if bool_decide (hook = asking_excepthook) then
    if bool_decide (exn_type_name e = "RuntimeError") then
      CallInput "Report? " w
        (fun r w1 =>
           match r with
           | InputInterrupted => Raise KeyboardInterrupt_exn w1
           | InputReturned _ => Return VNone w1
           end)
    else Raise (RuntimeError_exn "hook failed") w
  else
    Return VNone
      (write_to (sys_stderr w.1)
         ("Traceback (most recent call last):
" +:+ name_and_message e) w).

Definition cpython_asking : Python :=
  {| py_compile := sample_compile;
     py_eval := sample_eval;
     py_exec := sample_exec_questions;
     py_callable :=
       fun f => sample_callable f || bool_decide (f = asking_excepthook);
     call_displayhook := sample_displayhook;
     call_excepthook := sample_excepthook_asking;
     py_repr := fun v w => Return (sample_repr v) w;
     py_eval_dir := sample_eval_dir;
     dir_builtins := sample_dir_builtins |}.

Definition process_asking : Process :=
  set_sys_excepthook (Some asking_excepthook) process0.

Definition turn_two_questions : Machine :=
  submit two_questions process0 executor0 [].

Definition turn_failing_hook : Machine :=
  submit "1/0" process_asking executor0 [].

(** The inner [try] statement of the turn [run] starts on [m]. *)
Definition turn_inner_try (py : Python) (m : Machine) : outcome Frame :=
  inner_try py (stdout_capture_of m) (stderr_capture_of m) (turn_start m).

(** ** The listing of candidates, row by row *)

(** The candidates cut into rows of [cols]; [fuel] bounds the number of
    rows. *)
Fixpoint rows_of (fuel cols : nat) (cs : list string) : list (list string) :=
  match fuel with
  | 0 => []
  | S fuel =>
      match cs with
      | [] => []
      | _ => take cols cs :: rows_of fuel cols (drop cols cs)
      end
  end.

(** A candidate followed by spaces up to [width], and a row of such cells. *)
Definition cell (width : nat) (c : string) : string :=
  c +:+ String.concat "" (replicate (width - String.length c) " ").

Definition row_text (width : nat) (row : list string) : string :=
  String.concat "" (map (cell width) row).

(** [6*7] shown by [def hook(v): print(v)] in a fresh process. *)
Definition turn_6x7_quiet : Machine := submit "6*7" process_quiet executor0 [].

Definition turn_6x7_quiet_evaluated : Machine :=
  outcome_machine
    (drive (stdout_capture_of turn_6x7_quiet)
       (py_eval cpython "6*7" (world (turn_start turn_6x7_quiet)))
       (turn_start turn_6x7_quiet)).

Definition turn_6x7_quiet_displayed : Machine :=
  outcome_machine
    (drive (stdout_capture_of turn_6x7_quiet)
       (call_displayhook cpython quiet_displayhook int_42
          (world (hook_start turn_6x7_quiet_evaluated)))
       (hook_start turn_6x7_quiet_evaluated)).

(** ** Notions for the further properties *)

(** The worker has asked for input and no reply is left. *)
Definition asked (m : Machine) : Prop :=
  pending m = []
  /\ exists prompt : string, last (emitted m) = Some (input_requested prompt).

(** A turn of a second sample session, where the exception hook returns the
    exception's text as a value: [def hook(t, e, tb): return str(e)]. *)
Definition returning_excepthook : value := VObj 55.
Definition str_message : value := VObj 61.

Definition sample_excepthook2 (hook : value) (e : exn) (w : World)
  : result value :=
  if bool_decide (hook = returning_excepthook) then Return str_message w
  else sample_excepthook hook e w.

(** [print('hi')] is an expression; its value is [None]. *)
Definition sample_compile2 (mode : compile_mode) (source : string)
  : option exn :=
  if bool_decide (source = "print('hi')") then None
  else sample_compile mode source.

Definition sample_eval2 (source : string) (w : World) : result value :=
  if bool_decide (source = "print('hi')") then
    Return VNone (write_to (sys_stdout w.1) "hi
" w)
  else sample_eval source w.

Definition cpython2 : Python :=
  {| py_compile := sample_compile2;
     py_eval := sample_eval2;
     py_exec := sample_exec;
     py_callable := fun f => sample_callable f
                             || bool_decide (f = returning_excepthook);
     call_displayhook := sample_displayhook;
     call_excepthook := sample_excepthook2;
     py_repr := fun v w => Return (sample_repr v) w;
     py_eval_dir := sample_eval_dir;
     dir_builtins := sample_dir_builtins |}.

(** The sample process with [sys.excepthook] deleted, and with the hook
    that returns a value. *)
Definition process_no_excepthook : Process :=
  set_sys_excepthook None process0.

Definition process_returning : Process :=
  set_sys_excepthook (Some returning_excepthook) process0.

(** ** Key presses

    [TerminalWidget.keyPressEvent]. Keys the method passes on go to
    [QTextEdit.keyPressEvent], which is Qt's and is taken as the parameter
    [qt]: from the event, the document and the cursor position to the new
    document and position. Ctrl+A, which selects the line, is left out with
    the selections. *)

Inductive key :=
| Key_Return | Key_Enter | Key_Tab | Key_Up | Key_Down | Key_Home | Key_End
| Key_Backspace | Key_Left
| Key_Control | Key_Alt | Key_Shift | Key_Meta
| Key_C | Key_D | Key_L | Key_E | Key_K | Key_U
| Key_other.

Record QKeyEvent := {
  event_key : key;
  event_control : bool;      (* modifiers & ControlModifier *)
  event_text : string        (* event.text() *)
}.

(** [self.last_input_cursor_position = pos] *)
Definition set_last_input_cursor_position (pos : nat) (t : TerminalWidget)
  : TerminalWidget :=
  set_command_start (command_start_position t) (Some pos) t.

(** [cursor.setPosition(pos); self.setTextCursor(cursor)]: a position past
    the end of the document is refused and the cursor stays. *)
Definition set_cursor_position (pos : nat) (t : TerminalWidget)
  : TerminalWidget :=
  if Nat.leb pos (String.length (document t))
  then set_document (document t) pos t
  else t.

(** [self.clear()] *)
Definition clear (t : TerminalWidget) : TerminalWidget :=
  set_document "" 0 t.

Section Keys.

Variable py : Python.
Variable qt : QKeyEvent -> string -> nat -> string * nat.

(** [super().keyPressEvent(event)] *)
Definition super_keyPressEvent (e : QKeyEvent) (t : TerminalWidget)
  : TerminalWidget :=
  let '(d, pos) := qt e (document t) (cursor_position t) in
  set_document d pos t.

(** [super().keyPressEvent(event)] followed by the update of
    [last_input_cursor_position], lines 844-848 and 852-856. *)
Definition super_then_track (e : QKeyEvent) (t : TerminalWidget)
  : TerminalWidget :=
  let t := super_keyPressEvent e t in
  if Nat.leb (command_start_position t) (cursor_position t)
  then set_last_input_cursor_position (cursor_position t) t
  else t.

(** The branch for a pressed Ctrl, lines 857-884. *)
Definition control_key (e : QKeyEvent) (t : TerminalWidget) : TerminalWidget :=
  match event_key e with
  | Key_C => handle_ctrl_c t
  | Key_D => t                        (* the window is closed *)
  | Key_L => insert_prompt (clear t)
  | Key_E => set_document (document t) (String.length (document t)) t
  | Key_K =>
      set_document (str_to (cursor_position t) (document t))
        (cursor_position t) t
  | Key_U => set_current_command "" t
  | _ => super_keyPressEvent e t
  end.

Definition keyPressEvent (e : QKeyEvent) (t : TerminalWidget)
  : TerminalWidget :=
  match event_key e with
  | Key_Control | Key_Alt | Key_Shift | Key_Meta => t
  | k =>
      let prevent_editing :=
        Nat.ltb (cursor_position t) (command_start_position t)
        && negb (event_control e) in
      let typed :=
        (* the last two branches of the chain *)
        if event_control e then control_key e t
        else if prevent_editing then t
        else
          let t :=
            if Nat.leb (command_start_position t) (cursor_position t)
            then set_last_input_cursor_position (cursor_position t) t
            else t in
          super_keyPressEvent e t in
      match k with
      | Key_Return | Key_Enter =>
          if prevent_editing then t else handle_return t
      | Key_Tab =>
          if waiting_for_input t then typed
          else if prevent_editing then t else handle_tab_completion py t
      | Key_Up =>
          if waiting_for_input t then typed
          else if prevent_editing then t else navigate_history (-1) t
      | Key_Down =>
          if waiting_for_input t then typed
          else if prevent_editing then t else navigate_history 1 t
      | Key_Home =>
          let t := set_cursor_position (command_start_position t) t in
          set_last_input_cursor_position (cursor_position t) t
      | Key_End =>
          let t := set_document (document t) (String.length (document t)) t in
          set_last_input_cursor_position (cursor_position t) t
      | Key_Backspace | Key_Left =>
          if Nat.leb (cursor_position t) (command_start_position t) then t
          else super_then_track e t
      | _ => typed
      end
  end.

End Keys.

(** [append_output_only], the slot of [output_ready]. *)
Definition ends_with_newline (s : string) : bool :=
  match String.get (String.length s - 1) s with
  | Some c => Ascii.eqb c "010"
  | None => false
  end.

Definition append_output_only (output : string) (t : TerminalWidget)
  : TerminalWidget :=
  let t := set_document (document t) (String.length (document t)) t in
  if bool_decide (output = "") then t
  else
    let t := append_text output t in
    if ends_with_newline output then t else append_text "
" t.

(** The command start and the cursor lie inside the document. *)
Definition inside (t : TerminalWidget) : Prop :=
  command_start_position t <= String.length (document t)
  /\ cursor_position t <= String.length (document t).

(** What is assumed of [QTextEdit.keyPressEvent] for a key without Ctrl and
    without a selection: it leaves the text before the cursor alone, but for
    Backspace, which takes the character before the cursor; and it leaves
    the cursor inside the document. *)
Definition edits_at_cursor (qt : QKeyEvent -> string -> nat -> string * nat)
  : Prop :=
  forall (e : QKeyEvent) (d : string) (pos : nat),
    event_control e = false ->
    pos <= String.length d ->
    let kept := match event_key e with
                | Key_Backspace => pos - 1
                | _ => pos
                end in
    str_to kept (qt e d pos).1 = str_to kept d
    /\ (qt e d pos).2 <= String.length (qt e d pos).1.

(** A sample of Qt's handler: Backspace, Left, and typing the text of the
    event. *)
Definition sample_qt (e : QKeyEvent) (d : string) (pos : nat) : string * nat :=
  match event_key e with
  | Key_Backspace =>
      match pos with
      | O => (d, pos)
      | S n => (str_to n d +:+ str_from pos d, n)
      end
  | Key_Left => (d, pos - 1)
  | _ =>
      (str_to pos d +:+ event_text e +:+ str_from pos d,
       Nat.min pos (String.length d) + String.length (event_text e))
  end.

Definition plain (k : key) (text : string) : QKeyEvent :=
  {| event_key := k; event_control := false; event_text := text |}.

Definition ctrl (k : key) : QKeyEvent :=
  {| event_key := k; event_control := true; event_text := "" |}.

(** Key presses one after the other. *)
Definition press_all (py : Python)
  (qt : QKeyEvent -> string -> nat -> string * nat)
  (es : list QKeyEvent) (t : TerminalWidget) : TerminalWidget :=
  fold_left (fun t e => keyPressEvent py qt e t) es t.

(** The sample terminal with [ab] typed, and with the cursor put back into
    the prompt by a mouse click. *)
Definition terminal_ab : TerminalWidget :=
  type_text "ab" (terminal0 executor0).

Definition terminal_clicked : TerminalWidget :=
  set_document (document terminal_ab) 2 terminal_ab.

(** The document ends before the command start. *)
Definition cut_short (t : TerminalWidget) : Prop :=
  String.length (document t) < command_start_position t
  /\ cursor_position t <= String.length (document t).

(** ** The terminal as a machine driven by events *)

(** What reaches the widget: a key press, or a signal of the executor
    delivered to its slot. *)
Inductive ui_event :=
| Pressed (e : QKeyEvent)
| Finished (output : string) (is_error : bool)   (* execution_finished *)
| Requested (prompt : string)                    (* input_requested *)
| Ready (text : string).                         (* output_ready *)

Definition ui_step (py : Python)
  (qt : QKeyEvent -> string -> nat -> string * nat)
  (t : TerminalWidget) (ev : ui_event) : TerminalWidget :=
  match ev with
  | Pressed e => keyPressEvent py qt e t
  | Finished output is_error => on_execution_finished output is_error t
  | Requested prompt => on_input_requested prompt t
  | Ready text => append_output_only text t
  end.

Fixpoint no_adjacent_repeat (h : list string) : Prop :=
  match h with
  | a :: rest =>
      match rest with
      | b :: _ => a <> b /\ no_adjacent_repeat rest
      | [] => True
      end
  | [] => True
  end.

(** The history holds no blank entry and no entry twice in a row, and the
    index is -1 on an empty history and between 0 and the length
    otherwise. *)
Definition history_ok (t : TerminalWidget) : Prop :=
  Forall (fun c => strip c <> "") (command_history t)
  /\ no_adjacent_repeat (command_history t)
  /\ ((command_history t = [] /\ history_index t = (-1)%Z)
      \/ (command_history t <> []
          /\ (0 <= history_index t
              <= Z.of_nat (length (command_history t)))%Z)).

(** [t'] keeps the text before the command start of [t], does not move the
    command start back, and has start and cursor inside the document. *)
Definition protects (t t' : TerminalWidget) : Prop :=
  str_to (command_start_position t) (document t')
  = str_to (command_start_position t) (document t)
  /\ command_start_position t <= command_start_position t'
  /\ inside t'.

(** * Properties *)

(** Runs a turn of the sample session and names the machine it ends in. *)
Ltac evaluate_turn :=
  lazymatch goal with
  | |- exists m', run ?py ?m = _ /\ _ =>
      exists (machine_of (run py m)); split; [vm_compute; reflexivity|]
  end.

(** ** Basic facts about the text helpers *)

Lemma str_from_app (a b : string) : str_from (String.length a) (a +:+ b) = b.
Proof. induction a as [|c a IH]; [by destruct b|exact IH]. Qed.

Lemma str_to_app (a b : string) : str_to (String.length a) (a +:+ b) = a.
Proof.
  induction a as [|c a IH]; [by destruct b|exact (f_equal (String c) IH)].
Qed.

Lemma str_to_length (s : string) : str_to (String.length s) s = s.
Proof. induction s as [|c s IH]; [done|exact (f_equal (String c) IH)]. Qed.

Lemma str_from_length (s : string) : str_from (String.length s) s = "".
Proof. induction s as [|c s IH]; [done|exact IH]. Qed.

Lemma str_to_from (n : nat) (s : string) : str_to n s +:+ str_from n s = s.
Proof.
  revert s; induction n as [|n IH]; intros [|c s]; try reflexivity.
  exact (f_equal (String c) (IH s)).
Qed.

Lemma append_nil_r (s : string) : s +:+ "" = s.
Proof. induction s as [|c s IH]; [done|exact (f_equal (String c) IH)]. Qed.

Lemma append_assoc (a b c : string) : (a +:+ b) +:+ c = a +:+ b +:+ c.
Proof. induction a as [|x a IH]; [done|exact (f_equal (String x) IH)]. Qed.

Lemma length_append (a b : string) :
  String.length (a +:+ b) = String.length a + String.length b.
Proof. induction a as [|x a IH]; [done|exact (f_equal S IH)]. Qed.

Lemma length_str_to (n : nat) (s : string) :
  n <= String.length s -> String.length (str_to n s) = n.
Proof.
  revert s; induction n as [|n IH]; intros [|c s] Hn; try reflexivity.
  - simpl in Hn; lia.
  - simpl in Hn. exact (f_equal S (IH s (le_S_n _ _ Hn))).
Qed.

(** ** The line buffer and the history *)

Lemma get_current_command_set (command : string) (t : TerminalWidget) :
  command_start_position t <= String.length (document t) ->
  get_current_command (set_current_command command t) = command.
Proof.
  intros Hle. unfold get_current_command, set_current_command; simpl.
  rewrite Nat.min_l by exact Hle.
  rewrite <- (length_str_to _ _ Hle) at 1.
  apply str_from_app.
Qed.

Lemma set_current_command_start (command : string) (t : TerminalWidget) :
  command_start_position t <= String.length (document t) ->
  command_start_position (set_current_command command t)
  <= String.length (document (set_current_command command t)).
Proof.
  intros Hle. unfold set_current_command; simpl.
  rewrite Nat.min_l by exact Hle.
  rewrite length_append, (length_str_to _ _ Hle). lia.
Qed.

Lemma navigate_history_history (direction : Z) (t : TerminalWidget) :
  command_history (navigate_history direction t) = command_history t.
Proof.
  unfold navigate_history.
  destruct (command_history t) as [|c h] eqn:E; [by rewrite E|].
  repeat case_match; simpl; by rewrite ?E.
Qed.

Lemma navigate_history_start (direction : Z) (t : TerminalWidget) :
  command_start_position (navigate_history direction t)
  = command_start_position t.
Proof.
  unfold navigate_history.
  destruct (command_history t); [done|]. by repeat case_match.
Qed.

Lemma navigate_history_wf (direction : Z) (t : TerminalWidget) :
  command_start_position t <= String.length (document t) ->
  command_start_position (navigate_history direction t)
  <= String.length (document (navigate_history direction t)).
Proof.
  intros Hle. unfold navigate_history.
  destruct (command_history t); [done|].
  repeat case_match; try done; by apply set_current_command_start.
Qed.

(** Recall inside the history: the index moves and the entry is shown. *)
Lemma navigate_history_recall (direction : Z) (t : TerminalWidget)
  (entry : string) :
  command_start_position t <= String.length (document t) ->
  (0 <= history_index t + direction)%Z ->
  command_history t !! Z.to_nat (history_index t + direction) = Some entry ->
  history_index (navigate_history direction t)
  = (history_index t + direction)%Z
  /\ get_current_command (navigate_history direction t) = entry.
Proof.
  intros Hle Hpos Hlook. unfold navigate_history.
  pose proof (lookup_lt_Some _ _ _ Hlook) as Hlt.
  destruct (command_history t) as [|c h] eqn:E; [simpl in Hlt; lia|].
  rewrite <- E in *.
  assert (((0 <=? history_index t + direction)
           && (history_index t + direction
               <? Z.of_nat (length (command_history t))))%Z = true) as ->.
  { apply andb_true_intro; split; [apply Z.leb_le|apply Z.ltb_lt]; lia. }
  split; [done|].
  rewrite get_current_command_set by done. simpl. by rewrite Hlook.
Qed.

(** Recall past the newest entry: the index rests past the end and the
    buffer is emptied. *)
Lemma navigate_history_past_end (direction : Z) (t : TerminalWidget) :
  command_start_position t <= String.length (document t) ->
  command_history t <> [] ->
  (Z.of_nat (length (command_history t)) <= history_index t + direction)%Z ->
  history_index (navigate_history direction t)
  = Z.of_nat (length (command_history t))
  /\ get_current_command (navigate_history direction t) = "".
Proof.
  intros Hle Hne Hge. unfold navigate_history.
  destruct (command_history t) as [|c h] eqn:E; [done|].
  rewrite <- E in *.
  assert (((0 <=? history_index t + direction)
           && (history_index t + direction
               <? Z.of_nat (length (command_history t))))%Z = false) as ->.
  { apply andb_false_intro2, Z.ltb_ge; lia. }
  assert ((Z.of_nat (length (command_history t))
           <=? history_index t + direction)%Z = true) as ->.
  { apply Z.leb_le; lia. }
  split; [done|]. by rewrite get_current_command_set.
Qed.

Lemma insert_prompt_at_prompt (t : TerminalWidget) :
  at_prompt (insert_prompt t).
Proof. by split. Qed.

Lemma on_execution_finished_at_prompt output is_error (t : TerminalWidget) :
  at_prompt (on_execution_finished output is_error t).
Proof. apply insert_prompt_at_prompt. Qed.

Lemma get_current_command_typed (s : string) (t : TerminalWidget) :
  at_prompt t -> get_current_command (type_text s t) = s.
Proof.
  intros [Hs Hc].
  unfold get_current_command, type_text, insert_at_cursor; simpl.
  rewrite Hs, Hc, str_to_length, str_from_length, append_nil_r.
  apply str_from_app.
Qed.

(** Submitting a fragment with something in it, while editing. *)
Lemma handle_return_submit (t : TerminalWidget) :
  waiting_for_input t = false ->
  pyco_download_pending t = false ->
  strip (get_current_command t) <> "" ->
  let command := get_current_command t in
  let t' := handle_return t in
  command_history t'
  = (if bool_decide (last (command_history t) = Some command)
     then command_history t else (command_history t ++ [command])%list)
  /\ history_index t' = Z.of_nat (length (command_history t'))
  /\ code (python_executor t') = command
  /\ executor_started t' = true
  /\ waiting_for_input t' = false
  /\ pyco_download_pending t' = false.
Proof.
  intros Hw Hp Hne. unfold handle_return; simpl. rewrite Hw, Hp.
  rewrite bool_decide_eq_false_2 by exact Hne. simpl. done.
Qed.

Lemma on_execution_finished_keeps output is_error (t : TerminalWidget) :
  let t' := on_execution_finished output is_error t in
  command_history t' = command_history t
  /\ history_index t' = history_index t
  /\ waiting_for_input t' = waiting_for_input t
  /\ pyco_download_pending t' = pyco_download_pending t
  /\ python_executor t' = python_executor t.
Proof. unfold on_execution_finished. by case_bool_decide. Qed.

(** Submitting a fragment typed at a fresh prompt, then the end of its
    turn. *)
Lemma submit_then_finish (t : TerminalWidget) (a output : string)
  (is_error : bool) :
  at_prompt t ->
  waiting_for_input t = false ->
  pyco_download_pending t = false ->
  strip a <> "" ->
  let t' := on_execution_finished output is_error
              (handle_return (type_text a t)) in
  command_history t'
  = (if bool_decide (last (command_history t) = Some a)
     then command_history t else (command_history t ++ [a])%list)
  /\ history_index t' = Z.of_nat (length (command_history t'))
  /\ at_prompt t'
  /\ waiting_for_input t' = false
  /\ pyco_download_pending t' = false.
Proof.
  intros Hat Hw Hp Hne t'.
  pose proof (get_current_command_typed a t Hat) as Hcmd.
  destruct (handle_return_submit (type_text a t)) as (Hh & Hi & _ & _ & Hw' & Hp');
    [done|done|by rewrite Hcmd|].
  rewrite Hcmd in Hh.
  destruct (on_execution_finished_keeps output is_error
              (handle_return (type_text a t))) as (Kh & Ki & Kw & Kp & _).
  fold t' in Kh, Ki, Kw, Kp.
  change (command_history (type_text a t)) with (command_history t) in Hh.
  split_and!.
  - by rewrite Kh, Hh.
  - by rewrite Ki, Kh, Hi.
  - apply on_execution_finished_at_prompt.
  - by rewrite Kw.
  - by rewrite Kp.
Qed.

(** C8. History takes each submitted non-empty fragment unless it repeats
    the entry before it; recall never changes the history; and after
    submitting [a] then [b] on an empty history the index rests past the end
    at 2, previous shows [b], previous again [a], next [b], next again the
    empty buffer. *)
Theorem history_append_and_recall
  (t0 : TerminalWidget) (a b out1 out2 : string) (err1 err2 : bool) :
  waiting_for_input t0 = false ->
  pyco_download_pending t0 = false ->
  command_history t0 = [] ->
  strip a <> "" -> strip b <> "" -> a <> b ->
  let t1 := on_execution_finished out1 err1
              (handle_return (type_text a (insert_prompt t0))) in
  let t2 := on_execution_finished out2 err2 (handle_return (type_text b t1)) in
  let p1 := navigate_history (-1) t2 in
  let p2 := navigate_history (-1) p1 in
  let n1 := navigate_history 1 p2 in
  let n2 := navigate_history 1 n1 in
  (forall t : TerminalWidget,
      waiting_for_input t = false -> pyco_download_pending t = false ->
      strip (get_current_command t) <> "" ->
      command_history (handle_return t)
      = if bool_decide (last (command_history t)
                        = Some (get_current_command t))
        then command_history t
        else (command_history t ++ [get_current_command t])%list)
  /\ (forall (direction : Z) (t : TerminalWidget),
         command_history (navigate_history direction t) = command_history t)
  /\ command_history t2 = [a; b]
  /\ history_index t2 = 2%Z
  /\ get_current_command p1 = b
  /\ get_current_command p2 = a
  /\ get_current_command n1 = b
  /\ get_current_command n2 = ""
  /\ history_index n2 = 2%Z
  /\ command_history n2 = [a; b].
Proof.
  intros Hw Hp Hh Ha Hb Hab t1.
  destruct (submit_then_finish (insert_prompt t0) a out1 err1)
    as (H1h & H1i & H1at & H1w & H1p);
    [apply insert_prompt_at_prompt|done|done|done|].
  fold t1 in H1h, H1i, H1at, H1w, H1p.
  change (command_history (insert_prompt t0)) with (command_history t0) in H1h.
  rewrite Hh in H1h. clearbody t1. simpl in H1h.
  intros t2.
  destruct (submit_then_finish t1 b out2 err2)
    as (H2h & H2i & H2at & _); [done..|].
  fold t2 in H2h, H2i, H2at. clearbody t2.
  rewrite H1h in H2h; simpl in H2h.
  rewrite bool_decide_eq_false_2 in H2h by congruence. simpl in H2h.
  rewrite H2h in H2i; simpl in H2i.
  assert (command_start_position t2 <= String.length (document t2)) as Hwf2
    by (destruct H2at as [-> _]; done).
  intros p1.
  destruct (navigate_history_recall (-1) t2 b Hwf2) as [P1i P1c];
    [rewrite H2i; lia|by rewrite H2i, H2h|].
  pose proof (navigate_history_wf (-1) t2 Hwf2) as Hwfp1.
  pose proof (navigate_history_history (-1) t2) as P1h.
  fold p1 in P1i, P1c, Hwfp1, P1h. clearbody p1.
  rewrite H2h in P1h. rewrite H2i in P1i.
  intros p2.
  destruct (navigate_history_recall (-1) p1 a Hwfp1) as [P2i P2c];
    [rewrite P1i; lia|by rewrite P1i, P1h|].
  pose proof (navigate_history_wf (-1) p1 Hwfp1) as Hwfp2.
  pose proof (navigate_history_history (-1) p1) as P2h.
  fold p2 in P2i, P2c, Hwfp2, P2h. clearbody p2.
  rewrite P1h in P2h. rewrite P1i in P2i.
  intros n1.
  destruct (navigate_history_recall 1 p2 b Hwfp2) as [N1i N1c];
    [rewrite P2i; lia|by rewrite P2i, P2h|].
  pose proof (navigate_history_wf 1 p2 Hwfp2) as Hwfn1.
  pose proof (navigate_history_history 1 p2) as N1h.
  fold n1 in N1i, N1c, Hwfn1, N1h. clearbody n1.
  rewrite P2h in N1h. rewrite P2i in N1i.
  intros n2.
  destruct (navigate_history_past_end 1 n1 Hwfn1) as [N2i N2c];
    [by rewrite N1h|rewrite N1h, N1i; simpl; lia|].
  pose proof (navigate_history_history 1 n1) as N2h.
  fold n2 in N2i, N2c, N2h. clearbody n2.
  rewrite N1h in N2i, N2h.
  split; [intros t ? ? ?; by apply handle_return_submit|].
  split; [apply navigate_history_history|].
  done.
Qed.

(** ** Blank fragments *)

(** C7. A fragment that is empty or only whitespace changes neither the
    history nor the dictionaries of the executor when it is submitted, and
    no turn is started for it; and a turn the executor is nevertheless given
    for such a fragment emits one [execution_finished] signal with empty
    output and the error flag false, leaving the process and both
    dictionaries as they were. *)
Theorem blank_fragment_is_inert (py : Python) (t : TerminalWidget)
  (m : Machine) :
  strip (get_current_command t) = "" ->
  strip (code (executor m)) = "" ->
  (let t' := handle_return t in
   command_history t' = command_history t
   /\ history_index t' = history_index t
   /\ globals_dict (python_executor t') = globals_dict (python_executor t)
   /\ locals_dict (python_executor t') = locals_dict (python_executor t)
   /\ code (python_executor t') = code (python_executor t)
   /\ executor_started t' = executor_started t)
  /\ exists m' : Machine,
      run py m = Returned at_blank m'
      /\ emitted m' = (emitted m ++ [execution_finished "" false])%list
      /\ process m' = process m
      /\ globals_dict (executor m') = globals_dict (executor m)
      /\ locals_dict (executor m') = locals_dict (executor m)
      /\ pending m' = pending m.
Proof.
  intros Hcmd Hcode. split.
  - unfold handle_return; simpl.
    destruct (waiting_for_input t) eqn:Hw.
    { unfold provide_input, set_event; simpl.
      by destruct (input_event (python_executor t)). }
    destruct (pyco_download_pending t) eqn:Hp.
    { repeat case_match; done. }
    by rewrite bool_decide_eq_true_2 by exact Hcmd.
  - unfold run; cbn zeta.
    rewrite bool_decide_eq_true_2 by exact Hcode.
    eexists; split; [reflexivity|done].
Qed.

(** ** The redirection of a turn *)

(** What [run] installs: two empty buffers of the turn behind [sys.stdout]
    and [sys.stderr], a new function as [builtins.input]; [sys.stdin] is
    left alone. *)
Lemma installed_redirects (m : Machine) :
  handles (process (installed m))
  = (VObj (stdout_capture_of m), VObj (stderr_capture_of m),
     sys_stdin (process m), VObj (S (S (next_oid (process m)))))
  /\ getvalue (stdout_capture_of m) (process (installed m)) = ""
  /\ getvalue (stderr_capture_of m) (process (installed m)) = "".
Proof.
  split; [reflexivity|]. unfold getvalue, installed, stdout_capture_of,
    stderr_capture_of. cbn. split.
  - rewrite lookup_insert_ne by lia. by rewrite lookup_insert_eq.
  - by rewrite lookup_insert_eq.
Qed.

Lemma handles_restore (o e i f : value) (m : Machine) :
  handles (process (restore o e i f m)) = (o, e, i, f).
Proof. reflexivity. Qed.

Lemma handles_store_last_result (f : Frame) (m : Machine) :
  handles (process (store_last_result f m)) = handles (process m).
Proof. unfold store_last_result. by case_match. Qed.

Lemma handles_finish (cap err : nat) (f : Frame) (m : Machine) :
  handles (process (finish cap err f m)) = handles (process m).
Proof.
  unfold finish. destruct (combine_output _ _) as [output is_error].
  simpl. apply handles_store_last_result.
Qed.

(** C5. However [run] ends - by returning after a completed turn, after an
    interrupt, or with an exception that leaves it (a hook that raises, a
    [SystemExit]) - [sys.stdout], [sys.stderr], [sys.stdin] and
    [builtins.input] are what they were when [run] was entered. *)
Theorem run_restores_handles (py : Python) (m : Machine) :
  match run py m with
  | Returned _ m' | Propagated _ m' =>
      handles (process m') = handles (process m)
  | Waiting _ => True
  end.
Proof.
  unfold run. cbn zeta.
  case_bool_decide as Hblank; [reflexivity|].
  unfold try_block. cbn zeta.
  destruct (inner_try _ _ _ _) as [f m1|e m1|m1]; [| |done].
  - by rewrite handles_finish, handles_restore.
  - destruct (isinstance_KeyboardInterrupt e); [by rewrite handles_restore|].
    destruct (isinstance_Exception e); [|by rewrite handles_restore].
    destruct (except_Exception _ _ _ _ _ _) as [f m2|e' m2|m2]; [| |done].
    + by rewrite handles_finish, handles_restore.
    + by rewrite handles_restore.
Qed.

(** ** The signals of a turn *)

Lemma extends_refl (m : Machine) : extends m m.
Proof. exists []. split; [by rewrite app_nil_r|constructor]. Qed.

Lemma extends_trans (a b c : Machine) :
  extends a b -> extends b c -> extends a c.
Proof.
  intros (e1 & H1 & Q1) (e2 & H2 & Q2). exists (e1 ++ e2)%list. split.
  - by rewrite H2, H1, app_assoc.
  - by apply Forall_app.
Qed.

Lemma extends_same (m m' : Machine) : emitted m' = emitted m -> extends m m'.
Proof. intros H. exists []. split; [by rewrite app_nil_r|constructor]. Qed.

Lemma extends_emit (s : signal) (m : Machine) :
  is_terminal s = false -> extends m (emit s m).
Proof. intros H. exists [s]. split; [done|by constructor]. Qed.

Section Signals.

Variable py : Python.

Lemma interactive_input_extends (cap : nat) (prompt : string) (m : Machine) :
  extends m (outcome_machine (interactive_input cap prompt m)).
Proof.
  unfold interactive_input.
  set (m1 := if bool_decide (getvalue cap (process m) = "") then m else _).
  assert (extends m m1) as H1.
  { subst m1. case_bool_decide; [apply extends_refl|].
    eapply extends_trans; [|by apply extends_emit]. by apply extends_same. }
  eapply extends_trans; [exact H1|].
  set (m2 := emit (input_requested prompt) _).
  assert (extends m1 m2) as H2.
  { subst m2. eapply extends_trans; [|by apply extends_emit].
    by apply extends_same. }
  eapply extends_trans; [exact H2|].
  destruct (pending m2) as [|r rs]; [apply extends_refl|].
  case_match; by apply extends_same.
Qed.

Lemma drive_extends {A : Type} (cap : nat) (r : result A) (m : Machine) :
  extends m (outcome_machine (drive cap r m)).
Proof.
  revert m. induction r as [a w|e w|prompt w k IH]; intros m; simpl.
  - by apply extends_same.
  - by apply extends_same.
  - pose proof (interactive_input_extends cap prompt (with_world w m)) as Hi.
    destruct (interactive_input cap prompt (with_world w m)) as [ir m'|e m'|m'];
      simpl in Hi.
    + eapply extends_trans; [|apply IH].
      eapply extends_trans; [|exact Hi]. by apply extends_same.
    + eapply extends_trans; [|exact Hi]. by apply extends_same.
    + eapply extends_trans; [|exact Hi]. by apply extends_same.
Qed.

Lemma except_Exception_extends cap err fallback (e : exn) (m : Machine) :
  extends m (outcome_machine (except_Exception py cap err fallback e m)).
Proof.
  unfold except_Exception.
  destruct (usable_hook _ _) as [hook|]; [|by apply extends_same].
  pose proof (drive_extends cap (call_excepthook py hook e (world m)) m) as Hd.
  destruct (drive _ _ _) as [r m'|e' m'|m']; simpl in *; try done.
  by destruct (is_None r).
Qed.

Lemma try_statement_extends (cap : nat) (m : Machine) :
  extends m (outcome_machine (try_statement py cap m)).
Proof.
  unfold try_statement.
  destruct (py_compile _ _ _); [apply extends_refl|apply drive_extends].
Qed.

Lemma try_expression_extends (cap : nat) (m : Machine) :
  extends m (outcome_machine (try_expression py cap m)).
Proof.
  unfold try_expression.
  destruct (py_compile _ _ _); [apply extends_refl|].
  pose proof (drive_extends cap (py_eval py (code (executor m)) (world m)) m)
    as H1.
  destruct (drive _ _ _) as [result m1|e m1|m1]; simpl in H1; try done.
  destruct (is_None result); [done|].
  destruct (usable_hook _ _) as [hook|].
  - unfold getattr_underscore at 1. simpl.
    set (m2 := with_process _ m1).
    assert (extends m m2) as H2
      by (eapply extends_trans; [exact H1|by apply extends_same]).
    pose proof (drive_extends cap
                  (call_displayhook py hook result (world m2)) m2) as H3.
    destruct (drive _ _ _) as [dr m3|e m3|m3]; simpl in H3;
      try (simpl; eapply extends_trans; [exact H2|exact H3]).
    unfold getattr_underscore. simpl.
    case_match; simpl;
      (eapply extends_trans; [exact H2|];
       eapply extends_trans; [exact H3|]; by apply extends_same).
  - pose proof (drive_extends cap (py_repr py result (world m1)) m1) as H3.
    destruct (drive _ _ _) as [text m3|e m3|m3]; simpl in *.
    + eapply extends_trans; [exact H1|].
      eapply extends_trans; [exact H3|by apply extends_same].
    + by eapply extends_trans.
    + by eapply extends_trans.
Qed.

Lemma inner_try_extends (cap err : nat) (m : Machine) :
  extends m (outcome_machine (inner_try py cap err m)).
Proof.
  unfold inner_try.
  pose proof (try_expression_extends cap m) as H1.
  destruct (try_expression py cap m) as [f m1|e m1|m1]; simpl in H1;
    try done.
  destruct (isinstance_SyntaxError e).
  - unfold except_SyntaxError.
    pose proof (try_statement_extends cap m1) as H2.
    destruct (try_statement py cap m1) as [u m2|e' m2|m2]; simpl in H2;
      try (simpl; by eapply extends_trans).
    destruct (isinstance_KeyboardInterrupt e');
      [simpl; by eapply extends_trans|].
    destruct (isinstance_Exception e'); [|simpl; by eapply extends_trans].
    eapply extends_trans; [exact H1|].
    eapply extends_trans; [exact H2|apply except_Exception_extends].
  - destruct (isinstance_KeyboardInterrupt e); [done|].
    destruct (isinstance_Exception e); [|done].
    eapply extends_trans; [exact H1|apply except_Exception_extends].
Qed.

End Signals.

Lemma finish_emitted (cap err : nat) (f : Frame) (m : Machine) :
  emitted (finish cap err f m)
  = (emitted m
     ++ [execution_finished
           (combine_output (getvalue cap (process m))
              (getvalue err (process m))).1
           (combine_output (getvalue cap (process m))
              (getvalue err (process m))).2])%list.
Proof.
  unfold finish. destruct (combine_output _ _) as [output is_error]. simpl.
  unfold store_last_result. by case_match.
Qed.

Lemma finish_streams (cap err : nat) (f : Frame) (m : Machine) :
  streams (process (finish cap err f m)) = streams (process m).
Proof.
  unfold finish. destruct (combine_output _ _) as [output is_error]. simpl.
  unfold store_last_result. by case_match.
Qed.

(** C4, as the code has it. A turn whose [run] returns emits exactly one
    [execution_finished] signal, as its last signal. When [run] reaches its
    end, the text of that signal is the captured standard output if no
    standard error was captured, the captured standard error alone if no
    standard output was captured, and otherwise the output, a newline and
    the error text; the flag is set exactly when the error capture is not
    empty. A blank turn carries the empty text with the flag unset, an
    interrupted turn the interrupt text with the flag set. *)
Theorem returned_turn_final_signal (py : Python) (m m' : Machine)
  (r : return_point) :
  run py m = Returned r m' ->
  exists earlier : list signal,
    emitted m'
    = (emitted m ++ earlier
       ++ [final_signal r (getvalue (stdout_capture_of m) (process m'))
             (getvalue (stderr_capture_of m) (process m'))])%list
    /\ quiet earlier.
Proof.
  unfold run. cbn zeta.
  case_bool_decide as Hb.
  { intros [= <- <-]. exists []. split; [done|constructor]. }
  set (m0 := with_executor (set_interrupted false (executor m)) m).
  change (stdout_capture_of m0) with (stdout_capture_of m).
  change (stderr_capture_of m0) with (stderr_capture_of m).
  assert (extends m (installed m0)) as H0 by (by apply extends_same).
  unfold try_block. cbn zeta.
  pose proof (inner_try_extends py (stdout_capture_of m) (stderr_capture_of m)
                (installed m0)) as H1.
  destruct (inner_try _ _ _ _) as [f m1|e m1|m1]; simpl in H1; [| |done].
  - intros [= <- <-].
    destruct (extends_trans _ _ _ H0 H1) as (ev & Hev & Hq).
    exists ev. split; [|done].
    rewrite finish_emitted. simpl. rewrite Hev, <- app_assoc.
    unfold final_signal, getvalue, combine_output.
    rewrite finish_streams. simpl.
    repeat case_bool_decide; simpl; done.
  - destruct (isinstance_KeyboardInterrupt e).
    { intros [= <- <-].
      destruct (extends_trans _ _ _ H0 H1) as (ev & Hev & Hq).
      exists ev. split; [|done]. simpl. by rewrite Hev, <- app_assoc. }
    destruct (isinstance_Exception e); [|done].
    pose proof (except_Exception_extends py (stdout_capture_of m)
                  (stderr_capture_of m) execution_error e m1) as H2.
    destruct (except_Exception _ _ _ _ _ _) as [f m2|e' m2|m2]; simpl in H2;
      [|done|done].
    intros [= <- <-].
    destruct (extends_trans _ _ _ H0 (extends_trans _ _ _ H1 H2))
      as (ev & Hev & Hq).
    exists ev. split; [|done].
    rewrite finish_emitted. simpl. rewrite Hev, <- app_assoc.
    unfold final_signal, getvalue, combine_output.
    rewrite finish_streams. simpl.
    repeat case_bool_decide; simpl; done.
Qed.

(** C4 as stated fails when only standard error was written: the statement
    [import sys; sys.stderr.write('oops')] ends with the signal text [oops],
    with no newline before it. *)
Lemma final_text_has_no_newline_without_output :
  exists m' : Machine,
    run cpython
      (submit "import sys; sys.stderr.write('oops')" process0 executor0 [])
    = Returned at_end m'
    /\ emitted m' = [execution_finished "oops" true]
    /\ getvalue 100 (process m') = ""
    /\ getvalue 101 (process m') = "oops"
    /\ "oops" <> text_as_claimed "" "oops".
Proof.
  evaluate_turn.
  split; [vm_compute; reflexivity|]. split; [vm_compute; reflexivity|].
  split; [vm_compute; reflexivity|]. vm_compute. discriminate.
Qed.

(** ** The last result *)

Lemma getattr_underscore_eq (p : Process) :
  getattr_underscore p
  = (default (VObj (next_oid p)) (builtins_underscore p),
     set_next_oid (S (next_oid p)) p).
Proof. reflexivity. Qed.

(** C1, as the code has it. A fragment that compiles as an expression and
    evaluates to a value other than [None], shown by a callable display hook
    that returns and leaves [builtins._] bound: if the hook left in
    [builtins._] another object than was there before, the [_] entry of the
    globals is that object and the executor makes no update of its own;
    otherwise the entry, and [builtins._], is the value the hook returned if
    that is not [None], else the value of the expression. *)
Theorem display_hook_last_result (py : Python) (m m1 m2 : Machine)
  (result hook displayhook_result new : value) :
  strip (code (executor m)) <> "" ->
  py_compile py mode_eval (code (executor m)) = None ->
  drive (stdout_capture_of m)
    (py_eval py (code (executor m)) (world (turn_start m))) (turn_start m)
  = Ok result m1 ->
  is_None result = false ->
  usable_hook py (sys_displayhook (process m1)) = Some hook ->
  drive (stdout_capture_of m)
    (call_displayhook py hook result (world (hook_start m1))) (hook_start m1)
  = Ok displayhook_result m2 ->
  builtins_underscore (process m2) = Some new ->
  (builtins_underscore (process m1) = None ->
   new <> VObj (next_oid (process m1))) ->
  exists m' : Machine,
    run py m = Returned at_end m'
    /\ if bool_decide (builtins_underscore (process m1) = Some new)
       then
         let v := if is_None displayhook_result then result
                  else displayhook_result in
         globals_dict (executor m') !! "_" = Some v
         /\ builtins_underscore (process m') = Some v
       else
         globals_dict (executor m') !! "_" = Some new
         /\ builtins_underscore (process m') = Some new.
Proof.
  intros Hne Hcomp Heval Hres Hhook Hdisp Hnew Hfresh.
  unfold run. cbn zeta.
  rewrite bool_decide_eq_false_2 by exact Hne.
  unfold try_block, inner_try, try_expression. cbn zeta.
  change (code (executor (installed
            (with_executor (set_interrupted false (executor m)) m))))
    with (code (executor m)).
  rewrite Hcomp.
  change (installed (with_executor (set_interrupted false (executor m)) m))
    with (turn_start m).
  change (stdout_capture_of
            (with_executor (set_interrupted false (executor m)) m))
    with (stdout_capture_of m).
  rewrite Heval, Hres, Hhook.
  rewrite (getattr_underscore_eq (process m1)).
  change (with_process (set_next_oid (S (next_oid (process m1))) (process m1))
            m1) with (hook_start m1).
  rewrite Hdisp.
  rewrite (getattr_underscore_eq (process m2)), Hnew. cbn [default].
  unfold same_object.
  case_bool_decide as Hsame; case_bool_decide as Hold; cbn [negb].
  - (* the hook left the object that was there *)
    eexists. split; [reflexivity|].
    unfold finish. destruct (combine_output _ _) as [output is_error].
    unfold store_last_result. cbn [exception_occurred result_value negb andb].
    assert (is_None (if is_None displayhook_result then result
                     else displayhook_result) = false) as ->.
    { destruct (is_None displayhook_result) eqn:E; done. }
    cbn. split; [by rewrite lookup_insert_eq|done].
  - (* same reference, yet builtins._ was not bound to it: the sentinel *)
    exfalso. destruct (builtins_underscore (process m1)) as [old|] eqn:E.
    + cbn in Hsame. congruence.
    + cbn in Hsame. by apply Hfresh.
  - exfalso. rewrite Hold in Hsame. by cbn in Hsame.
  - (* the hook rebound builtins._ *)
    eexists. split; [reflexivity|].
    unfold finish. destruct (combine_output _ _) as [output is_error].
    cbn. split; [by rewrite lookup_insert_eq|done].
Qed.

Lemma run_nonblank (py : Python) (m : Machine) :
  strip (code (executor m)) <> "" ->
  run py m =
  match turn_try py m with
  | Fell_through f m1 =>
      Returned at_end (finish (stdout_capture_of m) (stderr_capture_of m) f m1)
  | Interrupt_return m1 => Returned at_interrupt m1
  | Raised e m1 => Propagated e m1
  | Stuck m1 => Waiting m1
  end.
Proof.
  intros Hne. unfold run. cbn zeta.
  by rewrite bool_decide_eq_false_2 by exact Hne.
Qed.

(** Without a usable display hook the value is printed and becomes the last
    result. *)
Lemma without_display_hook_last_result (py : Python) (m m1 m2 : Machine)
  (result : value) (text : string) :
  strip (code (executor m)) <> "" ->
  py_compile py mode_eval (code (executor m)) = None ->
  drive (stdout_capture_of m)
    (py_eval py (code (executor m)) (world (turn_start m))) (turn_start m)
  = Ok result m1 ->
  is_None result = false ->
  usable_hook py (sys_displayhook (process m1)) = None ->
  drive (stdout_capture_of m) (py_repr py result (world m1)) m1 = Ok text m2 ->
  exists m' : Machine,
    run py m = Returned at_end m'
    /\ globals_dict (executor m') !! "_" = Some result
    /\ builtins_underscore (process m') = Some result.
Proof.
  intros Hne Hcomp Heval Hres Hhook Hrepr.
  rewrite (run_nonblank py m Hne).
  unfold turn_try, try_block, inner_try, try_expression. cbn zeta.
  change (code (executor (turn_start m))) with (code (executor m)).
  rewrite Hcomp, Heval, Hres, Hhook, Hrepr.
  eexists. split; [reflexivity|].
  unfold finish. destruct (combine_output _ _) as [output is_error].
  unfold store_last_result. cbn [exception_occurred result_value negb andb].
  rewrite Hres. cbn. by rewrite lookup_insert_eq.
Qed.

(** Lines 276-280. When the outer [try] of a turn is left with a result to
    store (no exception recorded, [result_value] not [None]), [run] stores
    that value in the [_] entry of the executor's globals and also in
    [builtins._], which belongs to the process: any other executor of the
    process finds it there. *)
Lemma last_result_reaches_builtins (py : Python) (m m1 : Machine)
  (f : Frame) (other : PythonExecutor) :
  strip (code (executor m)) <> "" ->
  turn_try py m = Fell_through f m1 ->
  exception_occurred f = false ->
  is_None (result_value f) = false ->
  exists m' : Machine,
    run py m = Returned at_end m'
    /\ globals_dict (executor m') !! "_" = Some (result_value f)
    /\ builtins_underscore (process m') = Some (result_value f)
    /\ builtins_underscore (process (with_executor other m'))
       = Some (result_value f).
Proof.
  intros Hne Htry Hexc Hres. rewrite (run_nonblank py m Hne), Htry.
  eexists. split; [reflexivity|].
  unfold finish. destruct (combine_output _ _) as [output is_error].
  unfold store_last_result. rewrite Hexc, Hres. cbn.
  by rewrite lookup_insert_eq.
Qed.

(** C10: where the code departs from it. A fragment that compiles as an
    expression and evaluates to a value other than [None], shown by a
    callable display hook that returns and leaves [builtins._] unbound: the
    second [getattr] of line 193 makes a new object, the test of line 194
    takes it for a change made by the hook, and line 196 writes it to the
    [_] entry of the globals. The executor assigns nothing to [builtins._],
    which is unbound when the turn ends, and [result_value] being cleared,
    lines 276-280 store nothing either. *)
Theorem unbound_underscore_is_not_shared (py : Python) (m m1 m2 : Machine)
  (result hook displayhook_result : value) :
  strip (code (executor m)) <> "" ->
  py_compile py mode_eval (code (executor m)) = None ->
  drive (stdout_capture_of m)
    (py_eval py (code (executor m)) (world (turn_start m))) (turn_start m)
  = Ok result m1 ->
  is_None result = false ->
  usable_hook py (sys_displayhook (process m1)) = Some hook ->
  drive (stdout_capture_of m)
    (call_displayhook py hook result (world (hook_start m1))) (hook_start m1)
  = Ok displayhook_result m2 ->
  builtins_underscore (process m2) = None ->
  (getattr_underscore (process m2)).1 <> (getattr_underscore (process m1)).1 ->
  exists m' : Machine,
    run py m = Returned at_end m'
    /\ globals_dict (executor m') !! "_"
       = Some (VObj (next_oid (process m2)))
    /\ builtins_underscore (process m') = None
    /\ globals_dict (executor m')
       = <["_" := VObj (next_oid (process m2))]> (globals_dict (executor m2)).
Proof.
  intros Hne Hcomp Heval Hres Hhook Hdisp Hnew Hfresh.
  rewrite (run_nonblank py m Hne).
  unfold turn_try, try_block, inner_try, try_expression. cbn zeta.
  change (code (executor (turn_start m))) with (code (executor m)).
  rewrite Hcomp, Heval, Hres, Hhook.
  rewrite (getattr_underscore_eq (process m1)) in Hfresh |- *.
  change (with_process (set_next_oid (S (next_oid (process m1))) (process m1))
            m1) with (hook_start m1).
  rewrite Hdisp.
  rewrite (getattr_underscore_eq (process m2)) in Hfresh |- *.
  rewrite Hnew in Hfresh |- *. cbn [default fst] in Hfresh |- *.
  unfold same_object. rewrite bool_decide_eq_false_2 by exact Hfresh.
  cbn [negb]. eexists. split; [reflexivity|].
  unfold finish. destruct (combine_output _ _) as [output is_error].
  cbn. split; [by rewrite lookup_insert_eq|]. split; [exact Hnew|done].
Qed.

(** ** Interrupts *)

(** A cancellation that arrives during the wait releases it, and the input
    call raises [KeyboardInterrupt] into the code that made it. *)
Lemma interactive_input_interrupted (cap : nat) (prompt : string)
  (m : Machine) (rest : list reply) :
  pending m = InterruptExecution :: rest ->
  exists m' : Machine,
    interactive_input cap prompt m = Ok InputInterrupted m'
    /\ pending m' = rest
    /\ emitted m'
       = (emitted m
          ++ (if bool_decide (getvalue cap (process m) = "") then []
              else [output_ready (getvalue cap (process m))])
          ++ [input_requested prompt])%list.
Proof.
  intros Hp. unfold interactive_input.
  case_bool_decide as Hout; cbn; rewrite Hp; cbn;
    (eexists; split; [reflexivity|split; [done|]]).
  - done.
  - cbn. by rewrite <- app_assoc.
Qed.

(** Ctrl+C during an input wait is the cancellation: it calls
    [interrupt_execution] on the executor and draws nothing itself. *)
Lemma handle_ctrl_c_while_waiting (t : TerminalWidget) :
  waiting_for_input t = true ->
  python_executor (handle_ctrl_c t)
  = apply_reply InterruptExecution (python_executor t)
  /\ waiting_for_input (handle_ctrl_c t) = false
  /\ document (handle_ctrl_c t) = document t.
Proof. intros Hw. unfold handle_ctrl_c. by rewrite Hw. Qed.

Section Cancelled.

Variable py : Python.
Variable rest : list reply.
Hypothesis py_passes : lets_interrupt_pass py.

Lemma interactive_input_cancelled (cap : nat) (prompt : string) (m : Machine) :
  match interactive_input cap prompt m with
  | Ok r m1 => interactive_input cap prompt (then_cancel rest m) = Ok r (then_cancel rest m1)
  | Exc e m1 => interactive_input cap prompt (then_cancel rest m) = Exc e (then_cancel rest m1)
  | Blocked m1 =>
      exists m' : Machine,
        interactive_input cap prompt (then_cancel rest m) = Ok InputInterrupted m'
        /\ pending m' = rest
        /\ emitted m' = emitted m1
  end.
Proof.
  unfold interactive_input, then_cancel. destruct m as [p x ev pend]. cbn.
  destruct (bool_decide (getvalue cap p = "")); cbn;
    destruct pend as [|r rs]; cbn.
  - eexists. split; [reflexivity|]. done.
  - by destruct (interrupted (apply_reply r _)).
  - eexists. split; [reflexivity|]. done.
  - by destruct (interrupted (apply_reply r _)).
Qed.

Lemma drive_cancelled {A : Type} (cap : nat) (r : result A) (m : Machine) :
  passes_interrupt r ->
  cancelled rest (drive cap r m) (drive cap r (then_cancel rest m)).
Proof.
  revert m. induction r as [a w|e w|prompt w k IH]; intros m Hpass.
  - done.
  - done.
  - cbn [drive]. destruct Hpass as [Hint Hret].
    pose proof (interactive_input_cancelled cap prompt (with_world w m)) as Hi.
    change (with_world w (then_cancel rest m)) with (then_cancel rest (with_world w m)).
    destruct (interactive_input cap prompt (with_world w m)) as [ir m1|e m1|m1].
    + rewrite Hi.
      change (world (then_cancel rest m1)) with (world m1).
      destruct ir as [response|].
      * by apply IH.
      * destruct (Hint (world m1)) as (e & w' & Hraise & _).
        rewrite Hraise. done.
    + by rewrite Hi.
    + destruct Hi as (m' & -> & Hp & He).
      destruct (Hint (world m')) as (e & w' & Hraise & HKI).
      rewrite Hraise. cbn. exists e. eexists. split; [reflexivity|]. done.
Qed.

Lemma except_Exception_cancelled (cap err : nat) (fallback : exn -> string)
  (e : exn) (m : Machine) :
  cancelled rest (except_Exception py cap err fallback e m)
    (except_Exception py cap err fallback e (then_cancel rest m)).
Proof.
  unfold except_Exception.
  change (process (then_cancel rest m)) with (process m).
  change (world (then_cancel rest m)) with (world m).
  destruct (usable_hook py (sys_excepthook (process m))) as [hook|]; [|done].
  pose proof (drive_cancelled cap (call_excepthook py hook e (world m)) m
                (proj2 (proj2 (proj2 (proj2 py_passes))) hook e (world m)))
    as Hd.
  destruct (drive cap (call_excepthook py hook e (world m)) m)
    as [r m1|e1 m1|m1]; cbn in Hd.
  - rewrite Hd. by destruct (is_None r).
  - by rewrite Hd.
  - destruct Hd as (e1 & m' & -> & Hd). by exists e1, m'.
Qed.

Lemma try_statement_cancelled (cap : nat) (m : Machine) :
  cancelled rest (try_statement py cap m)
    (try_statement py cap (then_cancel rest m)).
Proof.
  unfold try_statement.
  change (executor (then_cancel rest m)) with (executor m).
  change (world (then_cancel rest m)) with (world m).
  destruct (py_compile py mode_exec (code (executor m))); [done|].
  apply drive_cancelled. apply py_passes.
Qed.

Lemma KeyboardInterrupt_is_not_SyntaxError (e : exn) :
  isinstance_KeyboardInterrupt e = true -> isinstance_SyntaxError e = false.
Proof.
  unfold isinstance_KeyboardInterrupt, isinstance_SyntaxError.
  by destruct (exn_class_of e).
Qed.

Lemma except_SyntaxError_cancelled (cap err : nat) (m : Machine) :
  cancelled rest (except_SyntaxError py cap err m)
    (except_SyntaxError py cap err (then_cancel rest m)).
Proof.
  unfold except_SyntaxError.
  pose proof (try_statement_cancelled cap m) as Hs.
  destruct (try_statement py cap m) as [[] m1|e1 m1|m1]; cbn in Hs.
  - by rewrite Hs.
  - rewrite Hs. destruct (isinstance_KeyboardInterrupt e1); [done|].
    destruct (isinstance_Exception e1); [|done].
    apply except_Exception_cancelled.
  - destruct Hs as (e1 & m' & -> & HKI & Hs). rewrite HKI. by exists e1, m'.
Qed.

Lemma try_expression_cancelled (cap : nat) (m : Machine) :
  cancelled rest (try_expression py cap m)
    (try_expression py cap (then_cancel rest m)).
Proof.
  destruct py_passes as (Heval & _ & Hdisplay & Hrepr & _).
  unfold try_expression. cbn zeta.
  change (executor (then_cancel rest m)) with (executor m).
  change (world (then_cancel rest m)) with (world m).
  destruct (py_compile py mode_eval (code (executor m))); [done|].
  pose proof (drive_cancelled cap
                (py_eval py (code (executor m)) (world m)) m (Heval _ _))
    as He.
  destruct (drive cap (py_eval py (code (executor m)) (world m)) m)
    as [result m1|e1 m1|m1]; cbn in He.
  - rewrite He. destruct (is_None result); [done|].
    change (process (then_cancel rest m1)) with (process m1).
    destruct (usable_hook py (sys_displayhook (process m1))) as [hook|].
    + rewrite (getattr_underscore_eq (process m1)).
      set (p1 := set_next_oid _ (process m1)).
      change (with_process p1 (then_cancel rest m1))
        with (then_cancel rest (with_process p1 m1)).
      set (m2 := with_process p1 m1).
      change (world (then_cancel rest m2)) with (world m2).
      pose proof (drive_cancelled cap
                    (call_displayhook py hook result (world m2)) m2
                    (Hdisplay _ _ _)) as Hd.
      destruct (drive cap (call_displayhook py hook result (world m2)) m2)
        as [r m3|e3 m3|m3]; cbn in Hd.
      * rewrite Hd.
        change (process (then_cancel rest m3)) with (process m3).
        rewrite (getattr_underscore_eq (process m3)).
        by destruct (negb _).
      * by rewrite Hd.
      * destruct Hd as (e3 & m' & -> & Hd). by exists e3, m'.
    + change (world (then_cancel rest m1)) with (world m1).
      pose proof (drive_cancelled cap (py_repr py result (world m1)) m1
                    (Hrepr _ _)) as Hd.
      destruct (drive cap (py_repr py result (world m1)) m1)
        as [text m3|e3 m3|m3]; cbn in Hd.
      * by rewrite Hd.
      * by rewrite Hd.
      * destruct Hd as (e3 & m' & -> & Hd). by exists e3, m'.
  - by rewrite He.
  - destruct He as (e1 & m' & -> & He). by exists e1, m'.
Qed.

Lemma inner_try_cancelled (cap err : nat) (m : Machine) :
  cancelled rest (inner_try py cap err m)
    (inner_try py cap err (then_cancel rest m)).
Proof.
  unfold inner_try.
  pose proof (try_expression_cancelled cap m) as He.
  destruct (try_expression py cap m) as [f m1|e1 m1|m1]; cbn in He.
  - by rewrite He.
  - rewrite He. destruct (isinstance_SyntaxError e1);
      [apply except_SyntaxError_cancelled|].
    destruct (isinstance_KeyboardInterrupt e1); [done|].
    destruct (isinstance_Exception e1); [|done].
    apply except_Exception_cancelled.
  - destruct He as (e1 & m' & -> & HKI & He).
    rewrite (KeyboardInterrupt_is_not_SyntaxError e1 HKI), HKI.
    by exists e1, m'.
Qed.

End Cancelled.

Lemma run_cancelled (py : Python) (m : Machine) (rest : list reply) :
  strip (code (executor m)) <> "" ->
  run py (then_cancel rest m)
  = match turn_try py (then_cancel rest m) with
    | Fell_through f m1 =>
        Returned at_end
          (finish (stdout_capture_of m) (stderr_capture_of m) f m1)
    | Interrupt_return m1 => Returned at_interrupt m1
    | Raised e m1 => Propagated e m1
    | Stuck m1 => Waiting m1
    end.
Proof. intros Hne. by rewrite (run_nonblank py (then_cancel rest m)). Qed.


(** ** Expression or statements *)

(** C2: where the code departs from it. When the fragment compiles as an
    expression and its evaluation raises a [SyntaxError] (from a nested
    [eval], [compile] or import), the inner [try] goes on as its
    [except SyntaxError] clause does from the state the evaluation left:
    the fragment is compiled and executed again, as statements. *)
Theorem runtime_SyntaxError_runs_fragment_again (py : Python)
  (cap err : nat) (m m1 : Machine) (e : exn) :
  py_compile py mode_eval (code (executor m)) = None ->
  drive cap (py_eval py (code (executor m)) (world m)) m = Exc e m1 ->
  isinstance_SyntaxError e = true ->
  inner_try py cap err m
  = match try_statement py cap m1 with
    | Ok _ m2 => Ok frame0 m2
    | Blocked m2 => Blocked m2
    | Exc e' m2 =>
        if isinstance_KeyboardInterrupt e' then Exc e' m2
        else if isinstance_Exception e'
             then except_Exception py cap err name_and_message e' m2
             else Exc e' m2
    end.
Proof.
  intros Hcomp Heval Hsyn.
  unfold inner_try, try_expression. by rewrite Hcomp, Heval, Hsyn.
Qed.

(** Any other exception of the evaluation goes to the handlers, and the
    statement path is not entered. *)
Lemma other_errors_skip_statements (py : Python) (cap err : nat)
  (m m1 : Machine) (e : exn) :
  py_compile py mode_eval (code (executor m)) = None ->
  drive cap (py_eval py (code (executor m)) (world m)) m = Exc e m1 ->
  isinstance_SyntaxError e = false ->
  inner_try py cap err m
  = if isinstance_KeyboardInterrupt e then Exc e m1
    else if isinstance_Exception e
         then except_Exception py cap err name_and_message e m1
         else Exc e m1.
Proof.
  intros Hcomp Heval Hsyn.
  unfold inner_try, try_expression. by rewrite Hcomp, Heval, Hsyn.
Qed.

(** A syntax error of the compilation itself leads to the statement path. *)
Lemma compile_error_tries_statements (py : Python) (cap err : nat)
  (m : Machine) (e : exn) :
  py_compile py mode_eval (code (executor m)) = Some e ->
  isinstance_SyntaxError e = true ->
  inner_try py cap err m = except_SyntaxError py cap err m.
Proof.
  intros Hcomp Hsyn. unfold inner_try, try_expression.
  by rewrite Hcomp, Hsyn.
Qed.

(** ** The sample session, turn by turn *)

(** [6*7] at the start of the sample session: the default hook binds
    [builtins._], which was unbound. *)
Lemma display_hook_last_result_witness :
  exists m' : Machine,
    run cpython turn_6x7 = Returned at_end m'
    /\ if bool_decide (builtins_underscore (process turn_6x7_evaluated)
                       = Some int_42)
       then
         let v := if is_None VNone then int_42 else VNone in
         globals_dict (executor m') !! "_" = Some v
         /\ builtins_underscore (process m') = Some v
       else
         globals_dict (executor m') !! "_" = Some int_42
         /\ builtins_underscore (process m') = Some int_42.
Proof.
  apply (display_hook_last_result cpython turn_6x7 turn_6x7_evaluated
           turn_6x7_displayed int_42 default_displayhook VNone int_42).
  - vm_compute. discriminate.
  - reflexivity.
  - vm_compute. reflexivity.
  - reflexivity.
  - reflexivity.
  - vm_compute. reflexivity.
  - reflexivity.
  - intros _. vm_compute. discriminate.
Defined.

(** C1 as stated fails for a display hook that both binds [builtins._] and
    returns a value: with [def hook(v): builtins._ = v; return repr(v)]
    installed, [6*7] leaves [_] bound to 42, not to the string the hook
    returned. *)
Lemma hook_return_value_is_not_last_result :
  exists m' : Machine,
    run cpython (submit "6*7" process_echo executor0 []) = Returned at_end m'
    /\ (forall w : World,
           call_displayhook cpython echo_displayhook int_42 w
           = Return str_repr_42 (bind_builtins_underscore int_42 w))
    /\ globals_dict (executor m') !! "_" = Some int_42
    /\ globals_dict (executor m') !! "_"
       <> Some (last_result_as_claimed str_repr_42 int_42).
Proof.
  evaluate_turn.
  split; [reflexivity|]. split; [vm_compute; reflexivity|].
  vm_compute. discriminate.
Qed.

(** Outside C1 as amended: with [builtins._] unbound before and after the
    hook ([def hook(v): print(v)] in a fresh process), the two sentinels
    differ, and [_] is bound to the second of them. *)
Lemma unbound_underscore_stores_a_sentinel :
  exists m' : Machine,
    run cpython (submit "6*7" process_quiet executor0 []) = Returned at_end m'
    /\ globals_dict (executor m') !! "_" = Some (VObj 104)
    /\ builtins_underscore (process m') = None
    /\ emitted m' = [execution_finished "42
" false].
Proof. evaluate_turn. repeat apply conj; vm_compute; reflexivity. Qed.

(** [6*7] once more: the hook leaves the object that was there, and the
    executor stores the result itself. *)
Lemma last_result_reaches_builtins_witness :
  exists m' : Machine,
    run cpython turn_6x7_again = Returned at_end m'
    /\ globals_dict (executor m') !! "_" = Some int_42
    /\ builtins_underscore (process m') = Some int_42
    /\ builtins_underscore (process (with_executor executor0 m'))
       = Some int_42.
Proof.
  apply (last_result_reaches_builtins cpython turn_6x7_again
           (try_machine (turn_try cpython turn_6x7_again))
           {| result_value := int_42; exception_occurred := false |}
           executor0).
  - vm_compute. discriminate.
  - vm_compute. reflexivity.
  - reflexivity.
  - reflexivity.
Defined.

Lemma cpython_asking_lets_interrupt_pass : lets_interrupt_pass cpython_asking.
Proof.
  split; [|split; [|split; [|split]]].
  - intros source w. cbn. unfold sample_eval.
    repeat case_bool_decide; try exact I.
    + cbn. split; [by eexists _, _|done].
    + by repeat case_match.
  - intros source w. cbn. unfold sample_exec_questions.
    case_bool_decide; [|exact I].
    cbn. split; [by eexists _, _|]. intros response w1. cbn.
    split; [by eexists _, _|done].
  - intros hook v w. cbn. unfold sample_displayhook.
    by repeat case_bool_decide.
  - done.
  - intros hook e w. cbn. unfold sample_excepthook_asking.
    repeat case_bool_decide; try exact I.
    cbn. split; [by eexists _, _|done].
Qed.

(** [6*7] in a fresh process whose display hook is [def hook(v): print(v)]:
    [_] is bound to a bare object, not to 42, and [builtins._] stays
    unbound. *)
Lemma unbound_underscore_is_not_shared_witness :
  exists m' : Machine,
    run cpython turn_6x7_quiet = Returned at_end m'
    /\ globals_dict (executor m') !! "_" = Some (VObj 104)
    /\ builtins_underscore (process m') = None
    /\ VObj 104 <> int_42.
Proof.
  destruct (unbound_underscore_is_not_shared cpython turn_6x7_quiet
              turn_6x7_quiet_evaluated turn_6x7_quiet_displayed
              int_42 quiet_displayhook VNone)
    as (m' & Hrun & Hg & Hb & _).
  - vm_compute. discriminate.
  - reflexivity.
  - vm_compute. reflexivity.
  - reflexivity.
  - reflexivity.
  - vm_compute. reflexivity.
  - reflexivity.
  - vm_compute. discriminate.
  - exists m'. split; [exact Hrun|]. split; [exact Hg|].
    split; [exact Hb|discriminate].
Defined.



(** A statement that writes to standard error only. *)
Lemma returned_turn_final_signal_witness :
  exists earlier : list signal,
    emitted (machine_of (run cpython turn_stderr_only))
    = (emitted turn_stderr_only ++ earlier
       ++ [final_signal at_end
             (getvalue (stdout_capture_of turn_stderr_only)
                (process (machine_of (run cpython turn_stderr_only))))
             (getvalue (stderr_capture_of turn_stderr_only)
                (process (machine_of (run cpython turn_stderr_only))))])%list
    /\ quiet earlier.
Proof.
  apply (returned_turn_final_signal cpython turn_stderr_only
           (machine_of (run cpython turn_stderr_only)) at_end).
  vm_compute. reflexivity.
Defined.

(** [print('hi') or eval('(')]: the nested [eval] raises [SyntaxError]. *)
Lemma runtime_SyntaxError_runs_fragment_again_witness :
  inner_try cpython 100 101 (turn_start turn_nested_syntax_error)
  = match try_statement cpython 100
            (outcome_machine
               (drive 100
                  (py_eval cpython "print('hi') or eval('(')"
                     (world (turn_start turn_nested_syntax_error)))
                  (turn_start turn_nested_syntax_error))) with
    | Ok _ m2 => Ok frame0 m2
    | Blocked m2 => Blocked m2
    | Exc e' m2 =>
        if isinstance_KeyboardInterrupt e' then Exc e' m2
        else if isinstance_Exception e'
             then except_Exception cpython 100 101 name_and_message e' m2
             else Exc e' m2
    end.
Proof.
  apply (runtime_SyntaxError_runs_fragment_again cpython 100 101
           (turn_start turn_nested_syntax_error) _
           (SyntaxError_exn "'(' was never closed (<string>, line 1)")).
  - reflexivity.
  - vm_compute. reflexivity.
  - reflexivity.
Defined.

(** The same fragment through [run]: [hi] is printed twice. *)
Lemma nested_syntax_error_prints_twice :
  exists m' : Machine,
    run cpython turn_nested_syntax_error = Returned at_end m'
    /\ getvalue 100 (process m') = "hi
hi
"
    /\ emitted m'
       = [execution_finished "hi
hi

Traceback (most recent call last):
SyntaxError: '(' was never closed (<string>, line 1)
" true].
Proof. evaluate_turn. repeat apply conj; vm_compute; reflexivity. Qed.

(** ** Completion *)

Lemma sorted_set_elem (name : string) (names : list string) :
  name ∈ sorted_set names <-> name ∈ names.
Proof.
  unfold sorted_set. rewrite merge_sort_Permutation. apply elem_of_remove_dups.
Qed.

Lemma sorted_set_Sorted (names : list string) :
  Sorted String.le (sorted_set names).
Proof. apply (Sorted_merge_sort String.le). Qed.

Lemma sorted_set_NoDup (names : list string) : NoDup (sorted_set names).
Proof.
  unfold sorted_set. rewrite merge_sort_Permutation. apply NoDup_remove_dups.
Qed.

Lemma elem_of_List_filter (f : string -> bool) (l : list string)
  (x : string) :
  x ∈ List.filter f l <-> x ∈ l /\ f x = true.
Proof. rewrite !list_elem_of_In. apply filter_In. Qed.

(** What does hold of C6: a key of [globals_dict] is offered for every
    non-empty dot-free token it starts with, unless it starts with an
    underscore. *)
Lemma global_name_is_completed (py : Python) (x : PythonExecutor)
  (text : string) (cursor_pos : Z) (last_word name : string) :
  last (split (slice_to cursor_pos text)) = Some last_word ->
  contains_dot last_word = false ->
  is_Some (globals_dict x !! name) ->
  startswith name last_word = true ->
  is_private name = false ->
  name ∈ (get_completions py text cursor_pos x).1.
Proof.
  intros Hlast Hdot Hin Hpre Hpriv. unfold get_completions.
  rewrite Hlast, Hdot. cbn [fst].
  apply sorted_set_elem. unfold name_candidates.
  apply elem_of_app; left. apply elem_of_List_filter. split.
  - unfold keys. apply elem_of_elements, elem_of_dom. exact Hin.
  - by rewrite Hpre, Hpriv.
Qed.

(** C6: where the code departs from it. The statement [myvar = 5] binds
    [myvar] in [locals_dict] - [exec] is given two dictionaries - so the
    next turn sees it ([myvar] shows 5), but completion reads
    [globals_dict] only and offers nothing for [myv]. *)
Theorem assigned_name_is_not_completed :
  exists m1 m2 : Machine,
    run cpython (submit "myvar = 5" process0 executor0 []) = Returned at_end m1
    /\ locals_dict (executor m1) !! "myvar" = Some int_5
    /\ globals_dict (executor m1) !! "myvar" = None
    /\ run cpython (submit "myvar" (process m1) (executor m1) [])
       = Returned at_end m2
    /\ emitted m2 = [execution_finished "5
" false]
    /\ locals_dict (executor m2) !! "myvar" = Some int_5
    /\ (get_completions cpython "myv" 3 (executor m2)).1 = [].
Proof.
  set (m1 := machine_of
               (run cpython (submit "myvar = 5" process0 executor0 []))).
  exists m1,
    (machine_of
       (run cpython (submit "myvar" (process m1) (executor m1) []))).
  subst m1. repeat apply conj; vm_compute; reflexivity.
Qed.

(** *** Strings with dots *)

Lemma rev_app_append (s acc : string) :
  String.rev_app s acc = String.rev_app s "" +:+ acc.
Proof.
  revert acc. induction s as [|c s IH]; intros acc; [done|].
  cbn [String.rev_app]. rewrite (IH (String c acc)), (IH (String c "")).
  by rewrite append_assoc.
Qed.

Lemma rev_cons (c : ascii) (s : string) :
  String.rev (String c s) = String.rev s +:+ String c "".
Proof. unfold String.rev. cbn [String.rev_app]. apply rev_app_append. Qed.

Lemma split_dot_go_nonempty (cur s : string) : split_dot_go cur s <> [].
Proof.
  revert cur. induction s as [|c s IH]; intros cur; cbn; [done|].
  destruct (Ascii.eqb c "."); [done|apply IH].
Qed.

Lemma concat_cons_nonempty (sep x : string) (l : list string) :
  l <> [] -> String.concat sep (x :: l) = x +:+ sep +:+ String.concat sep l.
Proof. by destruct l. Qed.

Lemma join_split_dot_go (cur s : string) :
  join_dot (split_dot_go cur s) = String.rev cur +:+ s.
Proof.
  revert cur. induction s as [|c s IH]; intros cur.
  - cbn. by rewrite append_nil_r.
  - cbn [split_dot_go]. destruct (Ascii.eqb c ".") eqn:E.
    + apply Ascii.eqb_eq in E as ->. unfold join_dot in *.
      rewrite concat_cons_nonempty by apply split_dot_go_nonempty.
      by rewrite IH.
    + rewrite IH, rev_cons. by rewrite append_assoc.
Qed.

Lemma join_split_dot (s : string) : join_dot (split_dot s) = s.
Proof. apply join_split_dot_go. Qed.

Lemma join_dot_removelast (parts : list string) (final : string) :
  2 <= length parts ->
  last parts = Some final ->
  join_dot parts = join_dot (removelast parts) +:+ "." +:+ final.
Proof.
  unfold join_dot. induction parts as [|x [|y l] IH]; intros Hlen Hlast.
  - cbn in Hlen; lia.
  - cbn in Hlen; lia.
  - destruct l as [|z l].
    + cbn in Hlast. injection Hlast as <-. done.
    + rewrite concat_cons_nonempty by done.
      rewrite IH; [|cbn; lia|exact Hlast].
      change (removelast (x :: y :: z :: l))
        with (x :: removelast (y :: z :: l)).
      rewrite (concat_cons_nonempty "." x (removelast (y :: z :: l)))
        by (by destruct l).
      by rewrite !append_assoc.
Qed.

Lemma last_cons_nonempty {A : Type} (x : A) (l : list A) :
  l <> [] -> last (x :: l) = last l.
Proof. by destruct l. Qed.

Lemma last_split_dot_go_after_dot (cur a b : string) :
  last (split_dot_go cur (a +:+ "." +:+ b)) = last (split_dot b).
Proof.
  revert cur. induction a as [|c a IH]; intros cur.
  - cbn. apply last_cons_nonempty, split_dot_go_nonempty.
  - change (String c a +:+ "." +:+ b) with (String c (a +:+ "." +:+ b)).
    cbn [split_dot_go]. destruct (Ascii.eqb c ".").
    + rewrite last_cons_nonempty by apply split_dot_go_nonempty. apply IH.
    + apply IH.
Qed.

Lemma split_dot_go_no_dot (cur s : string) :
  contains_dot s = false -> split_dot_go cur s = [String.rev cur +:+ s].
Proof.
  revert cur. induction s as [|c s IH]; intros cur Hs.
  - cbn. by rewrite append_nil_r.
  - cbn in Hs. cbn [split_dot_go]. destruct (Ascii.eqb c "."); [done|].
    rewrite IH by done. by rewrite rev_cons, append_assoc.
Qed.

Lemma last_split_dot_attribute (obj attr : string) :
  contains_dot attr = false ->
  last (split_dot (obj +:+ "." +:+ attr)) = Some attr.
Proof.
  intros Hattr. unfold split_dot at 1. rewrite last_split_dot_go_after_dot.
  unfold split_dot. by rewrite split_dot_go_no_dot.
Qed.

Lemma startswith_append (name p : string) :
  startswith name p = true -> name = p +:+ str_from (String.length p) name.
Proof.
  unfold startswith. revert name.
  induction p as [|c p IH]; intros name H; [done|].
  destruct name as [|d name]; [done|]. cbn in H.
  destruct (ascii_dec c d) as [->|]; [|done].
  exact (f_equal (String d) (IH name H)).
Qed.

(** *** Order *)

Lemma compare_append (p a b : string) :
  String.compare (p +:+ a) (p +:+ b) = String.compare a b.
Proof.
  induction p as [|c p IH]; [done|].
  change (String.compare (String c (p +:+ a)) (String c (p +:+ b))
          = String.compare a b).
  cbn [String.compare]. unfold Ascii.compare. by rewrite N.compare_refl.
Qed.

Lemma le_append (p a b : string) :
  String.le a b -> String.le (p +:+ a) (p +:+ b).
Proof. unfold String.le, String.leb. by rewrite compare_append. Qed.

Lemma StronglySorted_List_filter {A : Type} (R : relation A)
  (f : A -> bool) (l : list A) :
  StronglySorted R l -> StronglySorted R (List.filter f l).
Proof.
  induction 1 as [|x l Hl IH Hx]; cbn; [constructor|].
  destruct (f x); [|exact IH]. constructor; [exact IH|].
  apply List.Forall_forall. intros y Hy. apply filter_In in Hy as [Hy _].
  by apply (proj1 (List.Forall_forall _ _) Hx).
Qed.

Lemma StronglySorted_map {A : Type} (R : relation A) (g : A -> A)
  (l : list A) :
  (forall a b, R a b -> R (g a) (g b)) ->
  StronglySorted R l -> StronglySorted R (map g l).
Proof.
  intros Hg. induction 1 as [|x l Hl IH Hx]; cbn; constructor; [exact IH|].
  apply List.Forall_forall. intros y Hy.
  apply in_map_iff in Hy as (z & <- & Hz).
  apply Hg. by apply (proj1 (List.Forall_forall _ _) Hx).
Qed.

Lemma NoDup_List_filter (f : string -> bool) (l : list string) :
  NoDup l -> NoDup (List.filter f l).
Proof.
  rewrite !NoDup_ListNoDup. apply List.NoDup_filter.
Qed.

Section CompletionFacts.

Variable py : Python.
Hypothesis dir_ok : dir_contract py.

Lemma get_completions_sorted (text : string) (cursor_pos : Z)
  (x : PythonExecutor) :
  Sorted String.le (get_completions py text cursor_pos x).1
  /\ NoDup (get_completions py text cursor_pos x).1.
Proof.
  unfold get_completions.
  destruct (last _) as [last_word|];
    [|split; [apply sorted_set_Sorted|apply sorted_set_NoDup]].
  destruct (contains_dot last_word);
    [|split; [apply sorted_set_Sorted|apply sorted_set_NoDup]].
  destruct (Nat.leb 2 _); [|split; constructor].
  destruct (py_eval_dir py _ x) as [[names|] x'] eqn:E; [|split; constructor].
  destruct (dir_ok _ _ _ _ E) as (Hs & Hn & _). cbn [fst]. split.
  - apply StronglySorted_Sorted, StronglySorted_map.
    + intros a b Hab. by apply le_append.
    + apply StronglySorted_List_filter.
      by apply (Sorted_StronglySorted String.le).
  - set (obj_name := join_dot (removelast (split_dot last_word))).
    assert (Inj (=) (=) (fun attr => obj_name +:+ "." +:+ attr)) as Hinj.
    { intros a b H. apply (inj (String.app obj_name)) in H. by injection H. }
    apply (NoDup_fmap_2 (fun attr => obj_name +:+ "." +:+ attr)).
    by apply NoDup_List_filter.
Qed.

Lemma single_completion_suffix (text : string) (cursor_pos : Z)
  (x : PythonExecutor) (last_word completion : string) :
  (get_completions py text cursor_pos x).1 = [completion] ->
  last (split (slice_to cursor_pos text)) = Some last_word ->
  completion = last_word +:+ insert_text_for last_word completion.
Proof.
  unfold get_completions, insert_text_for. intros Hc Hlast.
  rewrite Hlast in Hc. destruct (contains_dot last_word).
  - destruct (Nat.leb 2 (length (split_dot last_word))) eqn:Hlen; [|done].
    apply Nat.leb_le in Hlen.
    destruct (last (split_dot last_word)) as [final|] eqn:Hfinal;
      [|apply last_None in Hfinal; rewrite Hfinal in Hlen; cbn in Hlen; lia].
    cbn [default] in *.
    destruct (py_eval_dir py _ x) as [[names|] x'] eqn:E; [|done].
    cbn [fst] in Hc.
    destruct (dir_ok _ _ _ _ E) as (_ & _ & Hdots).
    assert (completion ∈ [completion]) as Hin by apply list_elem_of_here.
    rewrite <- Hc in Hin. apply list_elem_of_In, in_map_iff in Hin
      as (attr & <- & Hattr).
    apply filter_In in Hattr as [Hattr Hpre].
    rewrite last_split_dot_attribute
      by (by apply (proj1 (List.Forall_forall _ _) Hdots)).
    cbn [default from_option id] in *.
    assert (last_word
            = join_dot (removelast (split_dot last_word)) +:+ "." +:+ final)
      as Hw.
    { rewrite <- (join_dot_removelast _ final Hlen Hfinal).
      symmetry. apply join_split_dot. }
    set (obj_name := join_dot (removelast (split_dot last_word))) in *.
    rewrite Hw, !append_assoc. do 2 f_equal.
    by apply startswith_append.
  - cbn [fst] in Hc.
    assert (completion ∈ sorted_set (name_candidates py last_word x)) as Hin
      by (rewrite Hc; apply list_elem_of_here).
    apply sorted_set_elem, elem_of_app in Hin.
    apply startswith_append.
    destruct Hin as [Hin|Hin]; apply elem_of_List_filter in Hin as [_ Hin];
      by apply andb_prop in Hin as [-> _].
Qed.

End CompletionFacts.

Lemma max_width_bound (cs : list string) :
  Forall (fun c => String.length c <= max_width cs) cs.
Proof.
  induction cs as [|c cs IH]; [constructor|]. constructor.
  - unfold max_width. cbn. lia.
  - eapply Forall_impl; [exact IH|]. intros x Hx. unfold max_width in *.
    cbn. lia.
Qed.

Lemma max_width_reached (cs : list string) :
  cs <> [] -> Exists (fun c => String.length c = max_width cs) cs.
Proof.
  induction cs as [|c cs IH]; [done|]. intros _.
  destruct cs as [|c2 cs].
  - left. unfold max_width. cbn. lia.
  - destruct (decide (max_width (c2 :: cs) <= String.length c)) as [Hle|Hgt].
    + left. unfold max_width in *. cbn in *. lia.
    + right. assert (max_width (c :: c2 :: cs) = max_width (c2 :: cs)) as ->.
      { unfold max_width in *. cbn in *. lia. }
      by apply IH.
Qed.

Lemma take_cons_pos {A : Type} (n : nat) (x : A) (l : list A) :
  0 < n -> take n (x :: l) = x :: take (n - 1) l.
Proof. destruct n; [lia|]. intros _. cbn. by rewrite Nat.sub_0_r. Qed.

Lemma drop_cons_pos {A : Type} (n : nat) (x : A) (l : list A) :
  0 < n -> drop n (x :: l) = drop (n - 1) l.
Proof. destruct n; [lia|]. intros _. cbn. by rewrite Nat.sub_0_r. Qed.

Section Listing.

Variables cols width : nat.
Hypothesis cols_pos : 0 < cols.

Lemma concat_cons_text (x : string) (l : list string) :
  String.concat "" (x :: l) = x +:+ String.concat "" l.
Proof. destruct l; [by rewrite append_nil_r|done]. Qed.

Lemma row_text_app (a b : list string) :
  row_text width (a ++ b)%list = row_text width a +:+ row_text width b.
Proof.
  unfold row_text. induction a as [|x a IH]; [done|].
  change (map (cell width) ((x :: a) ++ b)%list)
    with (cell width x :: map (cell width) (a ++ b)%list).
  change (map (cell width) (x :: a))
    with (cell width x :: map (cell width) a).
  by rewrite !concat_cons_text, IH, append_assoc.
Qed.

(** Within a row no line break is written. *)
Lemma listing_rows_within (n i : nat) (cs : list string) :
  (forall j, i <= j < i + n -> j = 0 \/ j mod cols <> 0) ->
  listing_rows cols width i cs
  = row_text width (take n cs) +:+ listing_rows cols width (i + n) (drop n cs).
Proof.
  revert i cs. induction n as [|n IH]; intros i cs Hrow.
  - by rewrite Nat.add_0_r.
  - destruct cs as [|c cs]; [done|].
    cbn [listing_rows take drop].
    assert ((Nat.ltb 0 i && Nat.eqb (i mod cols) 0) = false) as ->.
    { destruct (Hrow i ltac:(lia)) as [->|Hmod]; [done|].
      apply andb_false_iff. right. by apply Nat.eqb_neq. }
    rewrite (IH (S i) cs) by (intros j Hj; apply Hrow; lia).
    change (row_text width (c :: take n cs))
      with (String.concat "" (cell width c :: map (cell width) (take n cs))).
    rewrite concat_cons_text. fold (row_text width (take n cs)).
    replace (i + S n) with (S i + n) by lia.
    cbn [String.append]. unfold cell, ljust. by rewrite !append_assoc.
Qed.

Lemma listing_rows_rows (fuel k : nat) (cs : list string) :
  length cs <= fuel -> cs <> [] ->
  listing_rows cols width (k * cols) cs
  = (if Nat.ltb 0 k then "
" else "")
    +:+ String.concat "
" (map (row_text width) (rows_of fuel cols cs)).
Proof.
  revert k cs. induction fuel as [|fuel IH]; intros k cs Hlen Hne.
  - destruct cs; [done|cbn in Hlen; lia].
  - destruct cs as [|c cs]; [done|].
    cbn [rows_of].
    set (l := c :: cs) in *.
    assert (exists rest, l = c :: rest) as Hl by (by exists cs).
    clearbody l.
    assert (listing_rows cols width (k * cols) l
            = (if Nat.ltb 0 k then "
" else "") +:+ row_text width (take cols l)
              +:+ listing_rows cols width (S k * cols) (drop cols l)) as ->.
    { destruct Hl as (rest & ->).
      cbn [listing_rows].
      assert ((k * cols) mod cols = 0) as Hmod by (apply Nat.Div0.mod_mul).
      rewrite Hmod. cbn [Nat.eqb]. rewrite andb_true_r.
      assert (Nat.ltb 0 (k * cols) = Nat.ltb 0 k) as ->.
      { destruct k; [done|].
        apply eq_trans with true;
          [apply Nat.ltb_lt; nia|symmetry; apply Nat.ltb_lt; lia]. }
      rewrite (take_cons_pos cols c rest cols_pos),
        (drop_cons_pos cols c rest cols_pos).
      rewrite (listing_rows_within (cols - 1) (S (k * cols)) rest).
      - change (row_text width (c :: take (cols - 1) rest))
          with (String.concat ""
                  (cell width c :: map (cell width) (take (cols - 1) rest))).
        rewrite concat_cons_text. fold (row_text width (take (cols - 1) rest)).
        replace (S (k * cols) + (cols - 1)) with (S k * cols) by lia.
        unfold cell, ljust. by rewrite !append_assoc.
      - intros j Hj. right.
        replace j with ((j - k * cols) + k * cols) by lia.
        rewrite Nat.Div0.mod_add. rewrite Nat.mod_small; lia. }
    destruct (drop cols l) as [|d ds] eqn:Hdrop.
    + destruct fuel; cbn [rows_of map String.concat listing_rows];
        by rewrite append_nil_r.
    + rewrite (IH (S k) (d :: ds)); [|
        rewrite <- Hdrop, length_drop; destruct Hl as (rest & ->);
        cbn in *; lia|done].
      cbn [Nat.ltb Nat.leb].
      destruct fuel as [|fuel'];
        [exfalso; assert (length (drop cols l) <= 0) as H0
           by (rewrite length_drop; destruct Hl as (? & ->); cbn in *; lia);
         rewrite Hdrop in H0; cbn in H0; lia|].
      cbn [rows_of map].
      set (rs := map (row_text width) (rows_of fuel' cols (drop cols (d :: ds)))).
      cbn [String.concat]. done.
Qed.

End Listing.

Lemma rows_of_concat (fuel cols : nat) (cs : list string) :
  0 < cols -> length cs <= fuel -> concat (rows_of fuel cols cs) = cs.
Proof.
  intros Hcols. revert cs. induction fuel as [|fuel IH]; intros cs Hlen.
  - destruct cs; [done|cbn in Hlen; lia].
  - destruct cs as [|c cs]; [done|]. cbn [rows_of concat].
    rewrite IH; [apply take_drop|].
    rewrite length_drop. cbn in *. lia.
Qed.

Lemma rows_of_rows (fuel cols : nat) (cs : list string) :
  0 < cols ->
  Forall (fun row => row <> [] /\ length row <= cols) (rows_of fuel cols cs).
Proof.
  intros Hcols. revert cs. induction fuel as [|fuel IH]; intros cs;
    [constructor|].
  destruct cs as [|c cs]; [constructor|]. cbn [rows_of]. constructor.
  - split; [by rewrite (take_cons_pos cols c cs Hcols)|].
    rewrite length_take. lia.
  - apply IH.
Qed.

Lemma rows_of_full (fuel cols : nat) (cs : list string) (i : nat)
  (row : list string) :
  rows_of fuel cols cs !! i = Some row ->
  S i < length (rows_of fuel cols cs) ->
  length row = cols.
Proof.
  revert cs i. induction fuel as [|fuel IH]; intros cs i Hrow Hlast; [done|].
  destruct cs as [|c cs]; [done|]. cbn [rows_of] in *.
  destruct i as [|i].
  - cbn in Hrow. injection Hrow as <-. rewrite length_take.
    cbn [length] in Hlast.
    destruct (rows_of fuel cols (drop cols (c :: cs))) as [|r rs] eqn:E;
      [cbn in Hlast; lia|].
    assert (drop cols (c :: cs) <> []) as Hne.
    { intros H0. rewrite H0 in E. by destruct fuel. }
    assert (cols < length (c :: cs)); [|lia].
    destruct (decide (cols < length (c :: cs))) as [|Hge]; [done|].
    exfalso. apply Hne. apply drop_ge. lia.
  - cbn in Hrow. cbn [length] in Hlast. apply (IH _ i Hrow). lia.
Qed.

(** C9, as the code has it. The candidates are sorted and without repeats
    (for attribute completion, as far as [dir] returns them so). With no
    candidate the document and the line buffer stay as they are. With one
    candidate and a token before the cursor, the candidate is that token
    followed by the text inserted at the cursor; with one candidate and no
    token (nothing typed), nothing is inserted. With more candidates the
    document gets, on lines of its own, the candidates in their order in
    rows: every row but the last has as many candidates as fit in 80
    columns (at least one), every candidate is followed by spaces up to two
    more than the length of the longest; then come the prompt and the line
    that was being typed, which is the line buffer again. *)
Theorem tab_completion_outcomes (py : Python) (t : TerminalWidget) :
  dir_contract py ->
  let command := get_current_command t in
  let cursor_pos :=
    (Z.of_nat (cursor_position t) - Z.of_nat (command_start_position t))%Z in
  let completions :=
    (get_completions py command cursor_pos (python_executor t)).1 in
  let t' := handle_tab_completion py t in
  Sorted String.le completions
  /\ NoDup completions
  /\ match completions with
     | [] =>
         document t' = document t
         /\ cursor_position t' = cursor_position t
         /\ get_current_command t' = command
     | [completion] =>
         match last (split (slice_to cursor_pos command)) with
         | Some last_word =>
             exists suffix : string,
               completion = last_word +:+ suffix
               /\ document t'
                  = str_to (cursor_position t) (document t) +:+ suffix
                    +:+ str_from (cursor_position t) (document t)
               /\ cursor_position t'
                  = cursor_position t + String.length suffix
         | None => document t' = document t
         end
     | _ =>
         exists (longest cols : nat) (rows : list (list string)),
           Forall (fun c => String.length c <= longest) completions
           /\ Exists (fun c => String.length c = longest) completions
           /\ cols = Nat.max 1 (80 / (longest + 2))
           /\ concat rows = completions
           /\ Forall (fun row => row <> [] /\ length row <= cols) rows
           /\ (forall (i : nat) (row : list string),
                  rows !! i = Some row -> S i < length rows ->
                  length row = cols)
           /\ document t'
              = document t +:+ "
" +:+ String.concat "
"
                  (map
                     (fun row =>
                        String.concat ""
                          (map
                             (fun c =>
                                c +:+ String.concat ""
                                        (replicate
                                           (longest + 2 - String.length c)
                                           " "))
                             row))
                     rows)
                +:+ "
" +:+ current_prompt t +:+ command
           /\ get_current_command t' = command
     end.
Proof.
  intros Hdir command cursor_pos completions t'.
  destruct (get_completions_sorted py Hdir command cursor_pos
              (python_executor t)) as [Hs Hn].
  split; [exact Hs|]. split; [exact Hn|].
  subst t'. unfold handle_tab_completion.
  fold command. fold cursor_pos.
  pose proof (single_completion_suffix py Hdir command cursor_pos
                (python_executor t)) as Hsingle.
  fold completions in Hsingle. subst completions.
  destruct (get_completions py command cursor_pos (python_executor t))
    as [cs x]. cbn [fst] in *.
  destruct cs as [|completion [|second rest]].
  - done.
  - destruct (last (split (slice_to cursor_pos command))) as [last_word|];
      [|done].
    exists (insert_text_for last_word completion).
    split; [by apply Hsingle|]. done.
  - set (cs := completion :: second :: rest).
    set (cols := Nat.max 1 (80 / (max_width cs + 2))).
    assert (0 < cols) as Hcols by (unfold cols; lia).
    exists (max_width cs), cols, (rows_of (length cs) cols cs).
    split; [apply max_width_bound|].
    split; [by apply max_width_reached|].
    split; [reflexivity|].
    split; [by apply rows_of_concat|].
    split; [by apply rows_of_rows|].
    split; [apply rows_of_full|].
    split.
    + cbn [document append_text insert_prompt insert_at_cursor set_document
           set_python_executor set_command_start cursor_position
           current_prompt].
      rewrite str_to_length, str_from_length, append_nil_r.
      unfold listing. cbn zeta. fold cols.
      assert (cs <> []) as Hne by (subst cs; discriminate).
      assert (listing_rows cols (max_width cs + 2) 0 cs
              = String.concat "
" (map (row_text (max_width cs + 2)) (rows_of (length cs) cols cs)))
        as Hrows
        by exact (listing_rows_rows cols (max_width cs + 2) Hcols
                    (length cs) 0 cs (le_n _) Hne).
      rewrite Hrows. unfold row_text, cell.
      clearbody cs cols. rewrite !append_assoc. reflexivity.
    + unfold get_current_command. cbn.
      rewrite str_to_length, str_from_length, append_nil_r.
      apply str_from_app.
Qed.

(** The sample [dir] keeps its promise. *)
Lemma cpython_dir_contract : dir_contract cpython.
Proof.
  intros source x x' names H. cbn in H. unfold sample_eval_dir in H.
  case_bool_decide; [|done]. injection H as <- <-.
  split; [|split].
  - repeat (constructor; [|constructor; done]). constructor.
  - apply NoDup_ListNoDup. repeat constructor; cbn; intuition discriminate.
  - repeat constructor.
Qed.

(** Completing [m] in the sample session: four builtins, in one row of
    cells twelve wide. *)
Lemma tab_completion_outcomes_witness :
  let t := type_text "m" (terminal0 executor0) in
  let completions := (get_completions cpython "m" 1 executor0).1 in
  Sorted String.le completions
  /\ NoDup completions
  /\ completions = ["map"; "max"; "memoryview"; "min"]
  /\ document (handle_tab_completion cpython t)
     = ">>> m
map         max         memoryview  min         
>>> m"
  /\ get_current_command (handle_tab_completion cpython t) = "m".
Proof.
  intros t completions.
  assert ((get_completions cpython (get_current_command t)
             (Z.of_nat (cursor_position t)
              - Z.of_nat (command_start_position t))
             (python_executor t)).1
          = ["map"; "max"; "memoryview"; "min"]) as Hc
    by (vm_compute; reflexivity).
  assert (completions = ["map"; "max"; "memoryview"; "min"]) as Hc'
    by (vm_compute; reflexivity).
  pose proof (tab_completion_outcomes cpython t cpython_dir_contract) as H.
  cbv zeta in H. rewrite Hc in H.
  destruct H as (Hs & Hn & longest & cols & rows & _ & _ & _ & _ & _ & _ & _
                 & H).
  rewrite Hc'. split; [exact Hs|]. split; [exact Hn|].
  split; [reflexivity|]. split; [vm_compute; reflexivity|exact H].
Defined.

(** C9 as stated fails with one candidate and nothing typed: [alpha] is the
    only candidate, all of it is missing from the empty line, and nothing is
    inserted. *)
Lemma single_candidate_on_empty_line_inserts_nothing :
  let t := terminal0 executor_alpha in
  get_current_command t = ""
  /\ (get_completions cpython "" 0 executor_alpha).1 = ["alpha"]
  /\ get_current_command (handle_tab_completion cpython t) = ""
  /\ document (handle_tab_completion cpython t) = document t
  /\ get_current_command (handle_tab_completion cpython t)
     <> get_current_command t +:+ "alpha".
Proof.
  cbn zeta. split; [reflexivity|]. split; [vm_compute; reflexivity|].
  split; [vm_compute; reflexivity|]. split; [vm_compute; reflexivity|].
  vm_compute. discriminate.
Qed.

(** Three spaces, submitted at the prompt and given to the executor. *)
Lemma blank_fragment_is_inert_witness :
  let t := type_text "   " (terminal0 executor0) in
  let m := submit "   " process0 executor0 [] in
  command_history (handle_return t) = command_history t
  /\ executor_started (handle_return t) = false
  /\ exists m' : Machine,
      run cpython m = Returned at_blank m'
      /\ emitted m' = [execution_finished "" false]
      /\ globals_dict (executor m') = globals_dict executor0.
Proof.
  intros t m.
  destruct (blank_fragment_is_inert cpython t m) as [Ht (m' & Hr & He & _ & Hg & _)].
  - vm_compute. reflexivity.
  - vm_compute. reflexivity.
  - split; [exact (proj1 Ht)|]. split; [exact (proj2 (proj2 (proj2 (proj2 (proj2 Ht)))))|].
    exists m'. split; [exact Hr|]. split; [exact He|exact Hg].
Defined.

(** The fragments [a] and [b]. *)
Lemma history_append_and_recall_witness :
  let t1 := on_execution_finished "" false
              (handle_return
                 (type_text "a" (insert_prompt (terminal0 executor0)))) in
  let t2 := on_execution_finished "" false (handle_return (type_text "b" t1)) in
  command_history t2 = ["a"; "b"]
  /\ history_index t2 = 2%Z
  /\ get_current_command (navigate_history (-1) t2) = "b"
  /\ get_current_command (navigate_history (-1) (navigate_history (-1) t2))
     = "a".
Proof.
  intros t1 t2.
  assert (strip "a" <> "") as Ha by (vm_compute; discriminate).
  assert (strip "b" <> "") as Hb by (vm_compute; discriminate).
  assert ("a" <> "b") as Hab by discriminate.
  pose proof (history_append_and_recall (terminal0 executor0) "a" "b" "" ""
                false false eq_refl eq_refl eq_refl Ha Hb Hab) as H.
  cbv zeta in H. destruct H as (_ & _ & Hh & Hi & Hpb & Hpa & _).
  split; [exact Hh|]. split; [exact Hi|]. split; [exact Hpb|exact Hpa].
Defined.

(** ** Other ways a turn ends, in the sample session *)

(** An exception hook that raises: the second failure, in the outer
    handler, leaves [run]; no signal is emitted, the redirection is undone. *)
Lemma raising_hook_leaves_run :
  exists m' : Machine,
    run cpython (submit "1/0" process_raising executor0 [])
    = Propagated (RuntimeError_exn "hook failed") m'
    /\ emitted m' = []
    /\ handles (process m') = handles process_raising.
Proof. evaluate_turn. repeat apply conj; vm_compute; reflexivity. Qed.

(** [SystemExit] is caught by no handler of [run]. *)
Lemma system_exit_leaves_run :
  exists m' : Machine,
    run cpython (submit "raise SystemExit" process0 executor0 [])
    = Propagated SystemExit_exn m'
    /\ emitted m' = []
    /\ handles (process m') = handles process0.
Proof. evaluate_turn. repeat apply conj; vm_compute; reflexivity. Qed.

(** A fragment that catches the interrupt is not ended by it. *)
Lemma caught_interrupt_ends_normally :
  exists m' : Machine,
    run cpython
      (submit "try:
    input()
except KeyboardInterrupt:
    pass" process0 executor0 [InterruptExecution])
    = Returned at_end m'
    /\ emitted m' = [input_requested ""; execution_finished "" false].
Proof. evaluate_turn. repeat apply conj; vm_compute; reflexivity. Qed.

(** An answered input call: the turn goes on with the reply. *)
Lemma answered_input_turn :
  exists m' : Machine,
    run cpython (submit "input()" process0 executor0 [ProvideInput "abc"])
    = Returned at_end m'
    /\ emitted m' = [input_requested ""; execution_finished "'abc'
" false]
    /\ input_response (executor m') = Some "abc"
    /\ globals_dict (executor m') !! "_" = Some str_typed.
Proof. evaluate_turn. repeat apply conj; vm_compute; reflexivity. Qed.

(** * Further properties *)

(** ** Input calls *)

(** X1. An answered input call returns the reply as it was given (the empty
    reply as the empty string). Standard output captured before the call is
    sent ahead of the request as one [output_ready] signal and taken out of
    the capture, so that the final signal does not carry it again; every
    other buffer, the error capture included, keeps its text. *)
Theorem answered_input_returns_reply (cap : nat) (prompt s : string)
  (m : Machine) (rest : list reply) :
  interrupted (executor m) = false ->
  pending m = ProvideInput s :: rest ->
  exists m' : Machine,
    interactive_input cap prompt m = Ok (InputReturned s) m'
    /\ pending m' = rest
    /\ emitted m'
       = (emitted m
          ++ (if bool_decide (getvalue cap (process m) = "") then []
              else [output_ready (getvalue cap (process m))])
          ++ [input_requested prompt])%list
    /\ getvalue cap (process m') = ""
    /\ forall buf : nat,
        buf <> cap -> getvalue buf (process m') = getvalue buf (process m).
Proof.
  intros Hi Hp. unfold interactive_input.
  case_bool_decide as Hout; cbn; rewrite Hp; cbn; rewrite Hi;
    (eexists; split; [reflexivity|split; [done|]]).
  - split; [done|]. split; [exact Hout|done].
  - split; [cbn; by rewrite <- app_assoc|]. split.
    + unfold getvalue. cbn. by rewrite lookup_insert_eq.
    + intros buf Hbuf. unfold getvalue. cbn.
      by rewrite lookup_insert_ne by done.
Qed.

Lemma answered_input_returns_reply_witness :
  exists m' : Machine,
    interactive_input 100 "name? " (submit "input()" process0 executor0
                                     [ProvideInput "abc"])
    = Ok (InputReturned "abc") m'
    /\ pending m' = []
    /\ emitted m' = [input_requested "name? "].
Proof.
  destruct (answered_input_returns_reply 100 "name? " "abc"
              (submit "input()" process0 executor0 [ProvideInput "abc"]) [])
    as (m' & H & Hp & He & _); [reflexivity|reflexivity|].
  exists m'. split; [exact H|]. split; [exact Hp|exact He].
Defined.

Lemma interactive_input_Ok (cap : nat) (prompt : string) (m m' : Machine)
  (ir : input_result) :
  interactive_input cap prompt m = Ok ir m' ->
  getvalue cap (process m') = ""
  /\ (ir = InputInterrupted -> interrupted (executor m') = true).
Proof.
  unfold interactive_input.
  case_bool_decide as Hout; cbn; destruct (pending m) as [|r rs]; cbn;
    try done; case_match eqn:E; intros [= <- <-]; cbn.
  - done.
  - split; [exact Hout|done].
  - split; [|done]. unfold getvalue. cbn. by rewrite lookup_insert_eq.
  - split; [|done]. unfold getvalue. cbn. by rewrite lookup_insert_eq.
Qed.



(** ** How turns end *)

Section TurnEnds.

Variable py : Python.

Lemma interactive_input_asked (cap : nat) (prompt : string) (m m' : Machine) :
  interactive_input cap prompt m = Blocked m' -> asked m'.
Proof.
  unfold interactive_input.
  case_bool_decide; cbn; destruct (pending m) as [|r rs] eqn:Hp; cbn;
    try (by case_match); intros [= <-];
    (split; [exact Hp|exists prompt; exact (last_snoc _ _)]).
Qed.

Lemma drive_asked {A : Type} (cap : nat) (r : result A) (m m' : Machine) :
  drive cap r m = Blocked m' -> asked m'.
Proof.
  revert m. induction r as [a w|e w|prompt w k IH]; intros m; cbn;
    [done|done|].
  destruct (interactive_input cap prompt (with_world w m)) as [ir m1|e m1|m1]
    eqn:E; [apply IH|done|].
  intros [= <-]. by eapply interactive_input_asked.
Qed.

Lemma except_Exception_asked cap err fallback (e : exn) (m m' : Machine) :
  except_Exception py cap err fallback e m = Blocked m' -> asked m'.
Proof.
  unfold except_Exception. destruct (usable_hook _ _); [|done].
  destruct (drive _ _ _) as [r m1|e1 m1|m1] eqn:E; [by case_match|done|].
  intros [= <-]. by eapply drive_asked.
Qed.

Lemma try_statement_asked (cap : nat) (m m' : Machine) :
  try_statement py cap m = Blocked m' -> asked m'.
Proof.
  unfold try_statement. destruct (py_compile _ _ _); [done|].
  apply drive_asked.
Qed.

Lemma try_expression_asked (cap : nat) (m m' : Machine) :
  try_expression py cap m = Blocked m' -> asked m'.
Proof.
  unfold try_expression. destruct (py_compile _ _ _); [done|].
  destruct (drive cap (py_eval _ _ _) m) as [result m1|e m1|m1] eqn:E;
    [|done|intros [= <-]; by eapply drive_asked].
  destruct (is_None result); [done|].
  destruct (usable_hook _ _).
  - rewrite getattr_underscore_eq.
    destruct (drive cap (call_displayhook _ _ _ _) _) as [dr m2|e m2|m2]
      eqn:E2; [|done|intros [= <-]; by eapply drive_asked].
    rewrite getattr_underscore_eq. by case_match.
  - destruct (drive cap (py_repr _ _ _) _) as [text m2|e m2|m2] eqn:E2;
      [done|done|intros [= <-]; by eapply drive_asked].
Qed.

Lemma inner_try_asked (cap err : nat) (m m' : Machine) :
  inner_try py cap err m = Blocked m' -> asked m'.
Proof.
  unfold inner_try.
  destruct (try_expression py cap m) as [f m1|e m1|m1] eqn:E;
    [done| |intros [= <-]; by eapply try_expression_asked].
  destruct (isinstance_SyntaxError e).
  - unfold except_SyntaxError.
    destruct (try_statement py cap m1) as [u m2|e' m2|m2] eqn:E2;
      [done| |intros [= <-]; by eapply try_statement_asked].
    destruct (isinstance_KeyboardInterrupt e'); [done|].
    destruct (isinstance_Exception e'); [|done].
    apply except_Exception_asked.
  - destruct (isinstance_KeyboardInterrupt e); [done|].
    destruct (isinstance_Exception e); [|done].
    apply except_Exception_asked.
Qed.

End TurnEnds.

(** X3. When [run] never returns because the code waits in an input call
    that nobody answers, the last signal of the turn is the
    [input_requested] of that call, every reply has been used, and no
    [execution_finished] has been emitted. *)
Theorem waiting_turn_has_asked (py : Python) (m m' : Machine) :
  run py m = Waiting m' ->
  asked m' /\ extends m m'.
Proof.
  unfold run. cbn zeta. case_bool_decide; [done|].
  set (m0 := with_executor (set_interrupted false (executor m)) m).
  unfold try_block. cbn zeta.
  assert (extends m (installed m0)) as H0 by (by apply extends_same).
  pose proof (inner_try_extends py (stdout_capture_of m0)
                (stderr_capture_of m0) (installed m0)) as H1.
  destruct (inner_try _ _ _ _) as [f m1|e m1|m1] eqn:E; cbn in H1.
  - done.
  - destruct (isinstance_KeyboardInterrupt e); [done|].
    destruct (isinstance_Exception e); [|done].
    pose proof (except_Exception_extends py (stdout_capture_of m0)
                  (stderr_capture_of m0) execution_error e m1) as H2.
    destruct (except_Exception _ _ _ _ _ _) as [f m2|e' m2|m2] eqn:E2;
      cbn in H2; [done|done|].
    intros [= <-]. split; [by eapply except_Exception_asked|].
    apply (extends_trans m (installed m0)); [exact H0|].
    apply (extends_trans _ m1); [exact H1|exact H2].
  - intros [= <-]. split; [by eapply inner_try_asked|].
    apply (extends_trans m (installed m0)); [exact H0|exact H1].
Qed.

Lemma waiting_turn_has_asked_witness :
  asked (machine_of (run cpython (submit "input()" process0 executor0 [])))
  /\ extends (submit "input()" process0 executor0 [])
       (machine_of (run cpython (submit "input()" process0 executor0 []))).
Proof.
  apply (waiting_turn_has_asked cpython).
  vm_compute. reflexivity.
Defined.

(** X4. When an exception leaves [run] - a hook that raised in the outer
    handler, or a [SystemExit] - the turn has emitted no
    [execution_finished] signal: the controller is never told that the turn
    is over. *)
Theorem propagated_turn_emits_no_final_signal (py : Python) (m m' : Machine)
  (e : exn) :
  run py m = Propagated e m' ->
  exists ev : list signal,
    emitted m' = (emitted m ++ ev)%list
    /\ Forall (fun s => is_terminal s = false) ev.
Proof.
  unfold run. cbn zeta. case_bool_decide; [done|].
  set (m0 := with_executor (set_interrupted false (executor m)) m).
  unfold try_block. cbn zeta.
  assert (extends m (installed m0)) as H0 by (by apply extends_same).
  pose proof (inner_try_extends py (stdout_capture_of m0)
                (stderr_capture_of m0) (installed m0)) as H1.
  destruct (inner_try _ _ _ _) as [f m1|e1 m1|m1] eqn:E; cbn in H1;
    [done| |done].
  destruct (isinstance_KeyboardInterrupt e1); [done|].
  destruct (isinstance_Exception e1).
  - pose proof (except_Exception_extends py (stdout_capture_of m0)
                  (stderr_capture_of m0) execution_error e1 m1) as H2.
    destruct (except_Exception _ _ _ _ _ _) as [f m2|e' m2|m2] eqn:E2;
      cbn in H2; [done| |done].
    intros [= <- <-].
    apply (extends_trans m (installed m0)); [exact H0|].
    apply (extends_trans _ m1); [exact H1|].
    apply (extends_trans _ m2); [exact H2|]. by apply extends_same.
  - intros [= <- <-].
    apply (extends_trans m (installed m0)); [exact H0|].
    apply (extends_trans _ m1); [exact H1|]. by apply extends_same.
Qed.

Lemma propagated_turn_emits_no_final_signal_witness :
  exists ev : list signal,
    emitted (machine_of (run cpython
                           (submit "raise SystemExit" process0 executor0 [])))
    = (emitted (submit "raise SystemExit" process0 executor0 []) ++ ev)%list
    /\ Forall (fun s => is_terminal s = false) ev.
Proof.
  apply (propagated_turn_emits_no_final_signal cpython _ _ SystemExit_exn).
  vm_compute. reflexivity.
Defined.

(** ** What a turn stores and shows *)

Lemma finish_frame0 (cap err : nat) (m : Machine) :
  executor (finish cap err frame0 m) = executor m
  /\ process (finish cap err frame0 m) = process m.
Proof.
  unfold finish. by destruct (combine_output _ _) as [output is_error].
Qed.

(** X5. A fragment that does not compile as an expression and runs as
    statements without raising gets nothing from the executor beyond the
    final signal: no value is displayed, neither the [_] entry nor
    [builtins._] is written, and the dictionaries and buffers are as the
    statements left them. *)
Theorem statement_turn_stores_nothing (py : Python) (m m1 : Machine)
  (e : exn) :
  strip (code (executor m)) <> "" ->
  py_compile py mode_eval (code (executor m)) = Some e ->
  isinstance_SyntaxError e = true ->
  py_compile py mode_exec (code (executor m)) = None ->
  drive (stdout_capture_of m)
    (py_exec py (code (executor m)) (world (turn_start m))) (turn_start m)
  = Ok () m1 ->
  exists m' : Machine,
    run py m = Returned at_end m'
    /\ executor m' = executor m1
    /\ builtins_underscore (process m') = builtins_underscore (process m1)
    /\ streams (process m') = streams (process m1)
    /\ sys_displayhook (process m') = sys_displayhook (process m1).
Proof.
  intros Hne Hc He Hx Hd.
  rewrite (run_nonblank py m Hne).
  unfold turn_try, try_block, inner_try, try_expression. cbn zeta.
  change (code (executor (turn_start m))) with (code (executor m)).
  rewrite Hc, He. unfold except_SyntaxError, try_statement. cbn zeta.
  change (code (executor (turn_start m))) with (code (executor m)).
  rewrite Hx, Hd.
  eexists. split; [reflexivity|].
  destruct (finish_frame0 (stdout_capture_of m) (stderr_capture_of m)
              (restore (sys_stdout (process m)) (sys_stderr (process m))
                 (sys_stdin (process m)) (builtins_input (process m)) m1))
    as [-> ->].
  done.
Qed.

Lemma statement_turn_stores_nothing_witness :
  exists m' : Machine,
    run cpython (submit "myvar = 5" process0 executor0 []) = Returned at_end m'
    /\ executor m'
       = executor
           (outcome_machine
              (drive 100
                 (py_exec cpython "myvar = 5"
                    (world (turn_start
                              (submit "myvar = 5" process0 executor0 []))))
                 (turn_start (submit "myvar = 5" process0 executor0 []))))
    /\ builtins_underscore (process m') = None.
Proof.
  destruct (statement_turn_stores_nothing cpython
              (submit "myvar = 5" process0 executor0 [])
              (outcome_machine
                 (drive 100
                    (py_exec cpython "myvar = 5"
                       (world (turn_start
                                 (submit "myvar = 5" process0 executor0 []))))
                    (turn_start (submit "myvar = 5" process0 executor0 []))))
              (SyntaxError_exn "invalid syntax (<input>, line 1)"))
    as (m' & Hr & Hx & Hb & _).
  - vm_compute. discriminate.
  - reflexivity.
  - reflexivity.
  - reflexivity.
  - vm_compute. reflexivity.
  - exists m'. split; [exact Hr|]. split; [exact Hx|exact Hb].
Defined.

(** X6. An expression whose value is [None] is not displayed: no hook is
    called, nothing is printed, and neither [_] nor [builtins._] is
    written. *)
Theorem None_result_is_not_displayed (py : Python) (m m1 : Machine) :
  strip (code (executor m)) <> "" ->
  py_compile py mode_eval (code (executor m)) = None ->
  drive (stdout_capture_of m)
    (py_eval py (code (executor m)) (world (turn_start m))) (turn_start m)
  = Ok VNone m1 ->
  exists m' : Machine,
    run py m = Returned at_end m'
    /\ executor m' = executor m1
    /\ builtins_underscore (process m') = builtins_underscore (process m1)
    /\ streams (process m') = streams (process m1)
    /\ next_oid (process m') = next_oid (process m1).
Proof.
  intros Hne Hc Hd.
  rewrite (run_nonblank py m Hne).
  unfold turn_try, try_block, inner_try, try_expression. cbn zeta.
  change (code (executor (turn_start m))) with (code (executor m)).
  rewrite Hc, Hd. cbn [is_None].
  eexists. split; [reflexivity|].
  destruct (finish_frame0 (stdout_capture_of m) (stderr_capture_of m)
              (restore (sys_stdout (process m)) (sys_stderr (process m))
                 (sys_stdin (process m)) (builtins_input (process m)) m1))
    as [-> ->].
  done.
Qed.

Lemma None_result_is_not_displayed_witness :
  exists m' : Machine,
    run cpython2 (submit "print('hi')" process0 executor0 [])
    = Returned at_end m'
    /\ builtins_underscore (process m') = None
    /\ emitted m' = [execution_finished "hi
" false].
Proof.
  destruct (None_result_is_not_displayed cpython2
              (submit "print('hi')" process0 executor0 [])
              (outcome_machine
                 (drive 100
                    (py_eval cpython2 "print('hi')"
                       (world (turn_start
                                 (submit "print('hi')" process0 executor0 []))))
                    (turn_start (submit "print('hi')" process0 executor0 []))))
           ) as (m' & Hr & _ & Hb & _).
  - vm_compute. discriminate.
  - reflexivity.
  - vm_compute. reflexivity.
  - exists m'. split; [exact Hr|]. split; [exact Hb|].
    assert (Returned at_end m'
            = run cpython2 (submit "print('hi')" process0 executor0 []))
      as Heq by (symmetry; exact Hr).
    vm_compute in Heq. injection Heq as ->. reflexivity.
Defined.

(** X7. When the evaluation of an expression raises an ordinary exception
    and the exception hook returns, the value the hook returned decides the
    last result: a value other than [None] is stored in [_] and in
    [builtins._] as if the turn had produced it; with [None] the executor
    writes neither. *)
Theorem excepthook_result_is_last_result (py : Python) (m m1 m2 : Machine)
  (e : exn) (hook excepthook_result : value) :
  strip (code (executor m)) <> "" ->
  py_compile py mode_eval (code (executor m)) = None ->
  drive (stdout_capture_of m)
    (py_eval py (code (executor m)) (world (turn_start m))) (turn_start m)
  = Exc e m1 ->
  exn_class_of e = OtherException ->
  usable_hook py (sys_excepthook (process m1)) = Some hook ->
  drive (stdout_capture_of m) (call_excepthook py hook e (world m1)) m1
  = Ok excepthook_result m2 ->
  exists m' : Machine,
    run py m = Returned at_end m'
    /\ if is_None excepthook_result
       then executor m' = executor m2
            /\ builtins_underscore (process m')
               = builtins_underscore (process m2)
       else globals_dict (executor m') !! "_" = Some excepthook_result
            /\ builtins_underscore (process m') = Some excepthook_result.
Proof.
  intros Hne Hc Hd Hcls Hhook Hcall.
  rewrite (run_nonblank py m Hne).
  unfold turn_try, try_block, inner_try, try_expression. cbn zeta.
  change (code (executor (turn_start m))) with (code (executor m)).
  rewrite Hc, Hd.
  unfold isinstance_SyntaxError, isinstance_KeyboardInterrupt,
    isinstance_Exception. rewrite Hcls.
  unfold except_Exception. rewrite Hhook, Hcall.
  destruct (is_None excepthook_result) eqn:Hr.
  - eexists. split; [reflexivity|].
    unfold finish. destruct (combine_output _ _) as [output is_error]. done.
  - eexists. split; [reflexivity|].
    unfold finish. destruct (combine_output _ _) as [output is_error].
    unfold store_last_result. cbn [exception_occurred result_value negb andb].
    rewrite Hr. cbn. by rewrite lookup_insert_eq.
Qed.

Lemma excepthook_result_is_last_result_witness :
  exists m' : Machine,
    run cpython2 (submit "1/0" process_returning executor0 [])
    = Returned at_end m'
    /\ globals_dict (executor m') !! "_" = Some str_message
    /\ builtins_underscore (process m') = Some str_message.
Proof.
  apply (excepthook_result_is_last_result cpython2
           (submit "1/0" process_returning executor0 [])
           (outcome_machine
              (drive 100
                 (py_eval cpython2 "1/0"
                    (world (turn_start
                              (submit "1/0" process_returning executor0 []))))
                 (turn_start (submit "1/0" process_returning executor0 []))))
           (outcome_machine
              (drive 100
                 (py_eval cpython2 "1/0"
                    (world (turn_start
                              (submit "1/0" process_returning executor0 []))))
                 (turn_start (submit "1/0" process_returning executor0 []))))
           ZeroDivisionError_exn returning_excepthook str_message).
  - vm_compute. discriminate.
  - reflexivity.
  - vm_compute. reflexivity.
  - reflexivity.
  - reflexivity.
  - vm_compute. reflexivity.
Defined.



(** ** The protected part of the document *)

Lemma length_str_to_min (n : nat) (s : string) :
  String.length (str_to n s) = Nat.min n (String.length s).
Proof.
  revert s; induction n as [|n IH]; intros [|c s]; try reflexivity.
  exact (f_equal S (IH s)).
Qed.

Lemma str_to_str_to (n k : nat) (s : string) :
  n <= k -> str_to n (str_to k s) = str_to n s.
Proof.
  revert k s; induction n as [|n IH]; intros k s Hnk; [done|].
  destruct k as [|k]; [lia|]. destruct s as [|c s]; [done|].
  exact (f_equal (String c) (IH k s (le_S_n _ _ Hnk))).
Qed.

Lemma str_to_append_le (n : nat) (a b : string) :
  n <= String.length a -> str_to n (a +:+ b) = str_to n a.
Proof.
  revert a; induction n as [|n IH]; intros a Hn; [done|].
  destruct a as [|c a]; [cbn in Hn; lia|].
  exact (f_equal (String c) (IH a (le_S_n _ _ Hn))).
Qed.

Lemma str_to_agree (n k : nat) (a b : string) :
  n <= k -> str_to k a = str_to k b -> str_to n a = str_to n b.
Proof.
  intros Hnk H. rewrite <- (str_to_str_to n k a), <- (str_to_str_to n k b)
    by done. by rewrite H.
Qed.

Lemma str_to_length_ge (n : nat) (a b : string) :
  n <= String.length a -> str_to n b = str_to n a -> n <= String.length b.
Proof.
  intros Hn H. apply (f_equal String.length) in H.
  rewrite !length_str_to_min in H. lia.
Qed.

Lemma protects_refl (t : TerminalWidget) : inside t -> protects t t.
Proof. intros H. split; [done|]. split; [done|exact H]. Qed.

(** A step that appends to the document, leaves the cursor at the end and
    the command start where it was or at the end. *)
Lemma protects_append (t t' : TerminalWidget) (x : string) :
  inside t ->
  document t' = document t +:+ x ->
  cursor_position t' = String.length (document t') ->
  command_start_position t <= command_start_position t'
  <= String.length (document t') ->
  protects t t'.
Proof.
  intros [Hs Hc] Hd Hcur Hcs. unfold protects, inside.
  rewrite Hcur. split; [|lia].
  rewrite Hd. by apply str_to_append_le.
Qed.

Lemma length_append_le (a b : string) :
  String.length a <= String.length (a +:+ b).
Proof. rewrite length_append. lia. Qed.

Lemma handle_return_protects (t : TerminalWidget) :
  inside t -> protects t (handle_return t).
Proof.
  intros Hin. pose proof Hin as [Hs Hc]. unfold handle_return.
  set (t1 := append_text "
" t).
  change (waiting_for_input t1) with (waiting_for_input t).
  change (pyco_download_pending t1) with (pyco_download_pending t).
  assert (String.length (document t) <= String.length (document t1)) as H1
    by apply length_append_le.
  destruct (waiting_for_input t).
  { apply (protects_append t _ "
"); [done|done|done|]. cbn in *. lia. }
  destruct (pyco_download_pending t).
  { repeat case_match.
    - apply (protects_append t _ "
"); [done|done|done|]. cbn in *. lia.
    - eapply (protects_append t _ _); [done| |done|].
      + cbn. by rewrite !append_assoc.
      + cbn in *. pose proof (length_append_le (document t +:+ "
") "Download cancelled.
"). pose proof (length_append_le ((document t +:+ "
") +:+ "Download cancelled.
") (current_prompt t)). lia.
    - eapply (protects_append t _ _); [done| |done|].
      + cbn. by rewrite !append_assoc.
      + cbn in *. pose proof (length_append_le (document t +:+ "
") "Please enter 'y' for yes or 'n' for no: "). lia. }
  case_bool_decide.
  - eapply (protects_append t _ _); [done| |done|].
    + cbn. by rewrite !append_assoc.
    + cbn in *. pose proof (length_append_le (document t +:+ "
") (current_prompt t)). lia.
  - apply (protects_append t _ "
"); [done|done|done|]. cbn in *. lia.
Qed.

Lemma set_current_command_protects (command : string) (t : TerminalWidget) :
  inside t -> protects t (set_current_command command t).
Proof.
  intros [Hs Hc]. unfold protects, inside, set_current_command. cbn.
  rewrite Nat.min_l by done.
  rewrite str_to_append_le by (by rewrite length_str_to).
  rewrite str_to_str_to by done.
  rewrite length_append, length_str_to by done.
  split; [done|]. split; [done|]. split; [lia|].
  case_match eqn:E; [apply Nat.ltb_lt in E; lia|lia].
Qed.

Lemma navigate_history_protects (direction : Z) (t : TerminalWidget) :
  inside t -> protects t (navigate_history direction t).
Proof.
  intros Hin. unfold navigate_history.
  destruct (command_history t); [by apply protects_refl|].
  repeat case_match.
  - by apply (set_current_command_protects _ (set_history _ _ t)).
  - by apply (set_current_command_protects _ (set_history _ _ t)).
  - by apply protects_refl.
Qed.

Lemma insert_at_cursor_protects (s : string) (t : TerminalWidget) :
  inside t ->
  command_start_position t <= cursor_position t ->
  protects t (insert_at_cursor s t).
Proof.
  intros [Hs Hc] Hle. unfold protects, inside, insert_at_cursor. cbn.
  rewrite str_to_append_le by (rewrite length_str_to by done; lia).
  rewrite str_to_str_to by done.
  rewrite !length_append, length_str_to by done.
  split; [done|]. split; [done|]. lia.
Qed.

Lemma protects_trans (a b c : TerminalWidget) :
  protects a b -> protects b c -> protects a c.
Proof.
  intros (H1 & L1 & I1) (H2 & L2 & I2). split; [|split; [lia|exact I2]].
  rewrite <- H1. by apply (str_to_agree _ (command_start_position b)).
Qed.

Lemma handle_tab_completion_protects (py : Python) (t : TerminalWidget) :
  inside t ->
  command_start_position t <= cursor_position t ->
  protects t (handle_tab_completion py t).
Proof.
  intros Hin Hle. pose proof Hin as [Hs Hc]. unfold handle_tab_completion.
  destruct (get_completions _ _ _ _) as [cs x].
  destruct cs as [|completion [|second rest]].
  - by apply (protects_refl t).
  - destruct (last _).
    + by apply (insert_at_cursor_protects _ t).
    + by apply (protects_refl t).
  - set (l := listing _).
    eapply (protects_append t _ (l +:+ current_prompt t
                                 +:+ get_current_command t)); [done| | |].
    + cbn. rewrite str_to_length, str_from_length, append_nil_r.
      by rewrite !append_assoc.
    + cbn. rewrite str_to_length, str_from_length, append_nil_r.
      rewrite !length_append. lia.
    + cbn. rewrite str_to_length, str_from_length, append_nil_r.
      rewrite !length_append. lia.
Qed.

Section KeyFacts.

Variable py : Python.
Variable qt : QKeyEvent -> string -> nat -> string * nat.
Hypothesis qt_ok : edits_at_cursor qt.

Lemma super_keyPressEvent_protects (e : QKeyEvent) (t : TerminalWidget) :
  inside t ->
  event_control e = false ->
  command_start_position t
  <= match event_key e with
     | Key_Backspace => cursor_position t - 1
     | _ => cursor_position t
     end ->
  protects t (super_keyPressEvent qt e t).
Proof.
  intros [Hs Hc] Hctrl Hle. unfold super_keyPressEvent.
  destruct (qt_ok e (document t) (cursor_position t) Hctrl Hc) as [Hkeep Hpos].
  destruct (qt e (document t) (cursor_position t)) as [d pos].
  cbn [fst snd] in *. unfold protects, inside. cbn.
  assert (str_to (command_start_position t) d
          = str_to (command_start_position t) (document t)) as Hpre
    by (eapply str_to_agree; [exact Hle|exact Hkeep]).
  split; [exact Hpre|]. split; [done|]. split; [|exact Hpos].
  by eapply str_to_length_ge.
Qed.

Lemma typed_protects (e : QKeyEvent) (t : TerminalWidget) :
  inside t ->
  event_control e = false ->
  event_key e <> Key_Backspace ->
  protects t
    (if Nat.ltb (cursor_position t) (command_start_position t)
        && negb (event_control e)
     then t
     else
       super_keyPressEvent qt e
         (if Nat.leb (command_start_position t) (cursor_position t)
          then set_last_input_cursor_position (cursor_position t) t
          else t)).
Proof.
  intros Hin Hctrl Hkey. rewrite Hctrl. cbn [negb]. rewrite andb_true_r.
  destruct (Nat.ltb _ _) eqn:E; [by apply protects_refl|].
  apply Nat.ltb_ge in E.
  rewrite (proj2 (Nat.leb_le _ _) E).
  apply (super_keyPressEvent_protects e
           (set_last_input_cursor_position (cursor_position t) t));
    [exact Hin|exact Hctrl|].
  cbn. by destruct (event_key e).
Qed.


End KeyFacts.

Lemma sample_qt_edits_at_cursor : edits_at_cursor sample_qt.
Proof.
  intros e d pos _ Hpos. unfold sample_qt.
  assert (str_to pos (str_to pos d +:+ event_text e +:+ str_from pos d)
          = str_to pos d
          /\ Nat.min pos (String.length d) + String.length (event_text e)
             <= String.length
                  (str_to pos d +:+ event_text e +:+ str_from pos d))
    as Htype.
  { split.
    - rewrite str_to_append_le by (by rewrite length_str_to).
      by apply str_to_str_to.
    - rewrite !length_append, length_str_to by done. lia. }
  destruct (event_key e); try exact Htype.
  - destruct pos as [|n]; [done|]. cbn [fst snd].
    replace (S n - 1) with n by lia. split.
    + rewrite str_to_append_le by (rewrite length_str_to; lia).
      by apply str_to_str_to.
    + rewrite length_append, length_str_to by lia. lia.
  - cbn [fst snd]. split; [done|lia].
Qed.


(** ** Keys while the cursor is in the transcript *)

Section DeadKeys.

Variable py : Python.
Variable qt : QKeyEvent -> string -> nat -> string * nat.

Lemma keyPressEvent_cut_short (e : QKeyEvent) (t : TerminalWidget) :
  cut_short t ->
  event_control e = false ->
  cut_short (keyPressEvent py qt e t)
  /\ document (keyPressEvent py qt e t) = document t
  /\ command_history (keyPressEvent py qt e t) = command_history t
  /\ python_executor (keyPressEvent py qt e t) = python_executor t
  /\ executor_started (keyPressEvent py qt e t) = executor_started t.
Proof.
  intros [Hlen Hcur] Hctrl. unfold keyPressEvent. rewrite Hctrl.
  cbn [negb]. rewrite andb_true_r.
  assert (Nat.ltb (cursor_position t) (command_start_position t) = true)
    as -> by (apply Nat.ltb_lt; lia).
  assert (Nat.leb (cursor_position t) (command_start_position t) = true)
    as -> by (apply Nat.leb_le; lia).
  assert (Nat.leb (command_start_position t) (String.length (document t))
          = false) as Hrefused by (apply Nat.leb_gt; lia).
  destruct (event_key e); try destruct (waiting_for_input t);
    unfold set_cursor_position; rewrite ?Hrefused;
    (split; [split|]; cbn; first [done|lia]).
Qed.

Lemma press_all_cut_short (es : list QKeyEvent) (t : TerminalWidget) :
  cut_short t ->
  Forall (fun e => event_control e = false) es ->
  document (press_all py qt es t) = document t
  /\ command_history (press_all py qt es t) = command_history t
  /\ python_executor (press_all py qt es t) = python_executor t
  /\ executor_started (press_all py qt es t) = executor_started t.
Proof.
  intros Hcut Hes. revert t Hcut.
  induction Hes as [|e es He Hes IH]; intros t Hcut; [done|].
  destruct (keyPressEvent_cut_short e t Hcut He) as (Hc & Hd & Hh & Hx & Hs).
  change (press_all py qt (e :: es) t)
    with (press_all py qt es (keyPressEvent py qt e t)).
  destruct (IH _ Hc) as (-> & -> & -> & ->). done.
Qed.

(** X10. Ctrl+K is not held to the line being edited. Pressed while the
    cursor stands before the command start (after a click into the
    transcript), it deletes everything from the cursor on, the prompt
    included, and leaves the command start past the end of the document.
    From then on no key without Ctrl changes the document, the history or
    the executor - typing and Return are ignored - until Ctrl+L draws a new
    prompt. *)
Theorem ctrl_K_in_the_transcript (t : TerminalWidget)
  (es : list QKeyEvent) :
  inside t ->
  cursor_position t < command_start_position t ->
  Forall (fun e => event_control e = false) es ->
  let t1 := keyPressEvent py qt (ctrl Key_K) t in
  let t2 := press_all py qt es t1 in
  document t1 = str_to (cursor_position t) (document t)
  /\ String.length (document t1) < command_start_position t1
  /\ document t2 = document t1
  /\ command_history t2 = command_history t
  /\ executor_started t2 = executor_started t
  /\ at_prompt (keyPressEvent py qt (ctrl Key_L) t2).
Proof.
  intros [Hs Hc] Hlt Hes t1 t2.
  assert (document t1 = str_to (cursor_position t) (document t)) as Hd
    by reflexivity.
  assert (cut_short t1) as Hcut.
  { split; cbn; rewrite length_str_to by done; lia. }
  destruct (press_all_cut_short es t1 Hcut Hes) as (H2d & H2h & _ & H2s).
  fold t2 in H2d, H2h, H2s.
  split; [exact Hd|]. split; [exact (proj1 Hcut)|].
  split; [exact H2d|]. split; [exact H2h|]. split; [exact H2s|].
  apply insert_prompt_at_prompt.
Qed.

End DeadKeys.

Lemma ctrl_K_in_the_transcript_witness :
  let t1 := keyPressEvent cpython sample_qt (ctrl Key_K) terminal_clicked in
  let t2 := press_all cpython sample_qt
              [plain Key_other "x"; plain Key_Return ""] t1 in
  document t1 = ">>"
  /\ document t2 = ">>"
  /\ executor_started t2 = false.
Proof.
  destruct (ctrl_K_in_the_transcript cpython sample_qt terminal_clicked
              [plain Key_other "x"; plain Key_Return ""])
    as (H1 & _ & H2 & _ & H3 & _).
  - vm_compute. lia.
  - vm_compute. lia.
  - repeat constructor.
  - cbn zeta. split; [exact H1|]. split; [|exact H3].
    rewrite H2. exact H1.
Defined.

(** ** The history under every event *)

Lemma no_adjacent_repeat_snoc (h : list string) (c : string) :
  no_adjacent_repeat h -> last h <> Some c -> no_adjacent_repeat (h ++ [c]).
Proof.
  induction h as [|a [|b rest] IH]; intros Hh Hl; [done| |].
  - cbn. split; [|done]. intros ->. by apply Hl.
  - cbn in Hh. destruct Hh as [Hab Hrest]. cbn. split; [exact Hab|].
    apply IH; [exact Hrest|exact Hl].
Qed.

(** A step that leaves the history and its index alone. *)
Lemma history_ok_same (t t' : TerminalWidget) :
  command_history t' = command_history t ->
  history_index t' = history_index t ->
  history_ok t -> history_ok t'.
Proof. unfold history_ok. by intros -> ->. Qed.

Lemma handle_return_history_ok (t : TerminalWidget) :
  history_ok t -> history_ok (handle_return t).
Proof.
  intros (Hblank & Hrep & Hidx). unfold handle_return.
  set (t1 := append_text "
" t).
  change (waiting_for_input t1) with (waiting_for_input t).
  change (pyco_download_pending t1) with (pyco_download_pending t).
  destruct (waiting_for_input t); [done|].
  destruct (pyco_download_pending t); [by repeat case_match|].
  case_bool_decide as Hb; [done|].
  change (get_current_command t1) with (get_current_command t) in *.
  change (command_history t1) with (command_history t).
  case_bool_decide as Hl.
  - unfold history_ok. cbn. split; [done|]. split; [done|]. right.
    split; [|lia]. intros Hnil. by rewrite Hnil in Hl.
  - unfold history_ok. cbn. split; [|split].
    + apply Forall_app. split; [done|]. constructor; [exact Hb|constructor].
    + by apply no_adjacent_repeat_snoc.
    + right. split; [by destruct (command_history t)|lia].
Qed.

Lemma navigate_history_history_ok (direction : Z) (t : TerminalWidget) :
  history_ok t -> history_ok (navigate_history direction t).
Proof.
  intros Hok. unfold navigate_history.
  destruct (command_history t) as [|c h] eqn:E; [exact Hok|].
  rewrite <- E.
  assert (command_history t <> []) as Hne by (by rewrite E).
  pose proof Hok as (Hblank & Hrep & Hidx).
  destruct Hidx as [[Hnil _]|[_ Hidx]]; [done|].
  cbn zeta.
  set (new_index := (history_index t + direction)%Z).
  set (len := Z.of_nat (length (command_history t))).
  destruct ((0 <=? new_index)%Z && (new_index <? len)%Z) eqn:Hin.
  - apply andb_prop in Hin as [H0 H1].
    apply Z.leb_le in H0. apply Z.ltb_lt in H1.
    unfold history_ok. cbn. split; [done|]. split; [done|]. right.
    split; [done|]. fold len. lia.
  - destruct (len <=? new_index)%Z eqn:Hpast; [|exact Hok].
    unfold history_ok. cbn. split; [done|]. split; [done|]. right.
    split; [done|]. fold len. lia.
Qed.

Section Events.

Variable py : Python.
Variable qt : QKeyEvent -> string -> nat -> string * nat.

Lemma handle_tab_completion_history (t : TerminalWidget) :
  command_history (handle_tab_completion py t) = command_history t
  /\ history_index (handle_tab_completion py t) = history_index t.
Proof.
  unfold handle_tab_completion.
  destruct (get_completions _ _ _ _) as [cs x].
  destruct cs as [|c [|c2 rest]]; [done| |done]. by destruct (last _).
Qed.

Lemma super_keyPressEvent_history (e : QKeyEvent) (t : TerminalWidget) :
  command_history (super_keyPressEvent qt e t) = command_history t
  /\ history_index (super_keyPressEvent qt e t) = history_index t.
Proof. unfold super_keyPressEvent. by destruct (qt _ _ _). Qed.

Lemma keyPressEvent_history_ok (e : QKeyEvent) (t : TerminalWidget) :
  history_ok t -> history_ok (keyPressEvent py qt e t).
Proof.
  intros Hok.
  assert (forall t', command_history t' = command_history t ->
                     history_index t' = history_index t -> history_ok t')
    as Hsame by (intros t' H1 H2; by apply (history_ok_same t)).
  assert (forall t0, command_history t0 = command_history t ->
                     history_index t0 = history_index t ->
                     history_ok (super_keyPressEvent qt e t0)) as Hsuper.
  { intros t0 H1 H2. destruct (super_keyPressEvent_history e t0) as [K1 K2].
    apply Hsame; congruence. }
  assert (history_ok (control_key qt e t)) as Hctrl.
  { unfold control_key. destruct (event_key e); try (by apply Hsuper).
    - unfold handle_ctrl_c. by case_match.
    - done.
    - done.
    - done.
    - done.
    - unfold set_current_command. done. }
  unfold keyPressEvent.
  set (typed := if event_control e then _ else _).
  assert (history_ok typed) as Htyped.
  { subst typed. destruct (event_control e); [exact Hctrl|].
    destruct (_ && _)%bool; [done|]. apply Hsuper; by case_match. }
  destruct (event_key e); try done.
  - destruct (_ && _)%bool; [done|]. by apply handle_return_history_ok.
  - destruct (_ && _)%bool; [done|]. by apply handle_return_history_ok.
  - destruct (waiting_for_input t); [done|]. destruct (_ && _)%bool; [done|].
    destruct (handle_tab_completion_history t). by apply Hsame.
  - destruct (waiting_for_input t); [done|]. destruct (_ && _)%bool; [done|].
    by apply navigate_history_history_ok.
  - destruct (waiting_for_input t); [done|]. destruct (_ && _)%bool; [done|].
    by apply navigate_history_history_ok.
  - unfold set_cursor_position. by case_match.
  - case_match; [done|]. unfold super_then_track.
    destruct (super_keyPressEvent_history e t) as [K1 K2].
    case_match; apply Hsame; done.
  - case_match; [done|]. unfold super_then_track.
    destruct (super_keyPressEvent_history e t) as [K1 K2].
    case_match; apply Hsame; done.
Qed.

Lemma ui_step_history_ok (t : TerminalWidget) (ev : ui_event) :
  history_ok t -> history_ok (ui_step py qt t ev).
Proof.
  intros Hok. destruct ev as [e|output is_error|prompt|text]; cbn.
  - by apply keyPressEvent_history_ok.
  - destruct (on_execution_finished_keeps output is_error t)
      as (H1 & H2 & _). by apply (history_ok_same t).
  - unfold on_input_requested. by case_match.
  - unfold append_output_only. by repeat case_match.
Qed.

(** X11. Whatever keys are pressed and whatever signals arrive, in any
    order, the history never holds a blank entry nor the same entry twice
    in a row, and the history index stays within the history: -1 while the
    history is empty, between 0 and its length afterwards. *)
Theorem history_stays_well_formed (t : TerminalWidget) (evs : list ui_event) :
  history_ok t -> history_ok (fold_left (ui_step py qt) evs t).
Proof.
  revert t. induction evs as [|ev evs IH]; intros t Hok; [exact Hok|].
  cbn. apply IH. by apply ui_step_history_ok.
Qed.

End Events.

Lemma history_stays_well_formed_witness :
  history_ok
    (fold_left (ui_step cpython sample_qt)
       [Pressed (plain Key_other "a"); Pressed (plain Key_Return "");
        Finished "" false; Pressed (plain Key_Up "");
        Pressed (plain Key_Return ""); Finished "" false;
        Pressed (plain Key_Up ""); Pressed (plain Key_Up "")]
       (terminal0 executor0)).
Proof.
  apply (history_stays_well_formed cpython sample_qt).
  split; [constructor|]. split; [exact I|]. left. split; reflexivity.
Defined.

(** ** An interrupt in the outer handler *)


